(** * deepface / detectors / OpenCv.py : the OpenCV face detector client

    A shallow embedding of [OpenCvClient] (src/deepface/detectors/OpenCv.py)
    and the properties of its constructor, of [detect_faces] and of
    [find_eyes].

    - Python values are modelled by their mathematical counterparts: an
      integer is a [Z], a [str] is a [string], a [dict] with string keys is a
      [gmap string _], a tuple is a product, [None]-or-value is an [option].
    - A raised exception is a value of [exn]; a computation that may raise
      returns [exn + A] ([inl] is the raise).
    - The calls into OpenCV ([detectMultiScale3], [cvtColor],
      [detectMultiScale]) are the nodes of a program tree [prog]: the code
      decides nothing about their answers, so every theorem quantifies over
      all answers, exceptions included. *)

From Stdlib Require Import ZArith QArith Qround PrimFloat String Ascii List Permutation Sorted Lia.
From stdpp Require Import base option list gmap strings.

Local Open Scope string_scope.
Local Open Scope list_scope.
Local Open Scope Z_scope.

(** ** Exceptions *)

(** The exceptions the module can meet.  [ValueError] carries the argument
    tuple it was raised with; [Exception_] stands for whatever OpenCV
    raises ([cv2.error] and the like) with its class name and message. *)
Inductive exn : Type :=
| ValueError (args : list string)
| IndexError (msg : string)
| KeyError (key : string)
| UnboundLocalError (name : string)
| Exception_ (cls msg : string).

(** ** The model store: [build_model], [__build_cascade], [__get_opencv_path] *)

(** What the constructor reads from its surroundings: [cv2.__file__],
    [os.path.sep] (one character) and [os.path.isfile]. *)
Record py_env : Type := mk_py_env {
  cv2___file__ : string;
  os_path_sep : ascii;
  os_path_isfile : string -> bool
}.

(** [cv2.CascadeClassifier(path)]: a classifier is known by the file it was
    loaded from. *)
Inductive classifier : Type :=
| CascadeClassifier (path : string).

(** [str.split(sep)] for a one-character separator: a string with n
    separators yields n + 1 pieces, empty pieces included. *)
Fixpoint split (sep : ascii) (s : string) : list string :=
  match s with
  | EmptyString => [EmptyString]
  | String c s' =>
      if Ascii.eqb c sep then EmptyString :: split sep s'
      else match split sep s' with
           | [] => [String c EmptyString]
           | piece :: pieces => String c piece :: pieces
           end
  end.

(** [l[0:-1]]: all but the last element; the empty list stays empty. *)
Definition slice_0_m1 {A : Type} (l : list A) : list A := removelast l.

(** [OpenCvClient.__get_opencv_path] (lines 167-180). [folders[0]] raises
    [IndexError] on an empty list. *)
Definition __get_opencv_path (env : py_env) : exn + string :=
  let opencv_home := cv2___file__ env in
  let folders := slice_0_m1 (split (os_path_sep env) opencv_home) in
  match folders with
  | [] => inl (IndexError "list index out of range")
  | path :: rest =>
      let path := fold_left (fun path folder => path +:+ "/" +:+ folder) rest path in
      inr (path +:+ "/data/")
  end.

Definition asset_missing (path : string) : exn :=
  ValueError
    ["Confirm that opencv is installed on your environment! Expected path ";
     path; " violated."].

Definition unimplemented (model_name : string) : exn :=
  ValueError ["unimplemented model_name for build_cascade - " +:+ model_name].

(** [OpenCvClient.__build_cascade] (lines 135-165). *)
Definition __build_cascade (env : py_env) (model_name : string) : exn + classifier :=
  match __get_opencv_path env with
  | inl e => inl e
  | inr opencv_path =>
      if String.eqb model_name "haarcascade" then
        let face_detector_path := opencv_path +:+ "haarcascade_frontalface_default.xml" in
        if negb (os_path_isfile env face_detector_path)
        then inl (asset_missing face_detector_path)
        else inr (CascadeClassifier face_detector_path)
      else if String.eqb model_name "haarcascade_eye" then
        let eye_detector_path := opencv_path +:+ "haarcascade_eye.xml" in
        if negb (os_path_isfile env eye_detector_path)
        then inl (asset_missing eye_detector_path)
        else inr (CascadeClassifier eye_detector_path)
      else inl (unimplemented model_name)
  end.

(** [OpenCvClient.build_model] (lines 17-26): the dict is filled key by key,
    the first raise aborts the construction. *)
Definition build_model (env : py_env) : exn + gmap string classifier :=
  let detector : gmap string classifier := ∅ in
  match __build_cascade env "haarcascade" with
  | inl e => inl e
  | inr face =>
      let detector := <["face_detector" := face]> detector in
      match __build_cascade env "haarcascade_eye" with
      | inl e => inl e
      | inr eye =>
          let detector := <["eye_detector" := eye]> detector in
          inr detector
      end
  end.

(** The object: its only attribute is [self.model]. *)
Record OpenCvClient : Type := mk_OpenCvClient {
  model : gmap string classifier
}.

(** [OpenCvClient.__init__] (lines 14-15). *)
Definition __init__ (env : py_env) : exn + OpenCvClient :=
  match build_model env with
  | inl e => inl e
  | inr m => inr (mk_OpenCvClient m)
  end.

(** ** Images, rectangles and scores *)

(** A numpy array of pixels, as far as this module looks at it: [shape[0]]
    rows of [shape[1]] pixels each (a pixel holds its channels).  The number
    of columns is kept next to the rows because an array with no rows still
    has a [shape[1]]. *)
Record ndarray (P : Type) : Type := mk_ndarray {
  nd_cols : nat;
  nd_rows : list (list P)
}.
Arguments mk_ndarray {P} _ _.
Arguments nd_cols {P} _.
Arguments nd_rows {P} _.

Definition shape0 {P : Type} (a : ndarray P) : Z := Z.of_nat (length (nd_rows a)).
Definition shape1 {P : Type} (a : ndarray P) : Z := Z.of_nat (nd_cols a).

(** Every row has [shape[1]] pixels. *)
Definition nd_wf {P : Type} (a : ndarray P) : Prop :=
  Forall (fun row => length row = nd_cols a) (nd_rows a).

(** A colour image has (blue, green, red) pixels, a grey one a single
    channel. *)
Definition image : Type := ndarray (Z * Z * Z).
Definition gray_image : Type := ndarray Z.

(** The pixel at row [i], column [j]. *)
Definition pixel_at {P : Type} (a : ndarray P) (i j : nat) : option P :=
  match nd_rows a !! i with
  | Some row => row !! j
  | None => None
  end.

(** A row [(x, y, w, h)] of the arrays OpenCV returns, and the
    [[x, y, w, h]] list of a region.  OpenCV hands the four numbers over as
    numpy 32-bit integers: sums and products of them are formed in 32 bits
    and wrap around ([int32] below). *)
Record rect : Type := mk_rect { rx : Z; ry : Z; rw : Z; rh : Z }.

(** A pixel position [(x, y)]. *)
Definition point : Type := (Z * Z)%type.

(** A cascade score is a Python float, a binary64 number; the module only
    passes it on. *)
Definition score : Type := float.

(** The float that the literal [1.1] denotes. *)
Definition float_1_1 : float := 0x1.199999999999ap+0%float.

(** The value of a numpy [int32] operation whose exact result is [z]: it
    wraps around into [-2^31, 2^31). *)
Definition int32 (z : Z) : Z := (z + 2 ^ 31) mod 2 ^ 32 - 2 ^ 31.
Arguments int32 : simpl never.

(** How Python clamps one bound of [l[start:stop]] for a sequence of
    length [n]: a negative bound counts from the end. *)
Definition slice_index (i n : Z) : Z :=
  if i <? 0 then Z.max (i + n) 0 else Z.min i n.

(** The number of elements of [l[start:stop]], [n] being [len(l)]. *)
Definition slice_len (start stop n : Z) : nat :=
  Z.to_nat (slice_index stop n - slice_index start n).

(** [l[start:stop]]. *)
Definition py_slice {A : Type} (start stop : Z) (l : list A) : list A :=
  let n := Z.of_nat (length l) in
  take (slice_len start stop n) (drop (Z.to_nat (slice_index start n)) l).

(** [img[int(y) : int(y + h), int(x) : int(x + w)]] (line 70).  The sums
    [y + h] and [x + w] are formed on [int32] values before [int] turns
    them into Python integers. *)
Definition crop {P : Type} (img : ndarray P) (r : rect) : ndarray P :=
  let '(mk_rect x y w h) := r in
  mk_ndarray
    (slice_len x (int32 (x + w)) (shape1 img))
    (py_slice x (int32 (x + w)) <$> py_slice y (int32 (y + h)) (nd_rows img)).

(** ** Programs that call OpenCV *)

(** [cv2.COLOR_BGR2GRAY], the only conversion code used. *)
Inductive color_code : Type := COLOR_BGR2GRAY.

(** What [detectMultiScale3(..., outputRejectLevels=True)] returns:
    rectangles, reject levels, level weights. *)
Definition faces3 : Type := (list rect * list Z * list score)%type.

(** A program is a tree: it returns, raises, or calls OpenCV and goes on
    with the answer, which is a value or an exception. *)
Inductive prog (A : Type) : Type :=
| Ret (a : A)
| Raise (e : exn)
| detectMultiScale3 (c : classifier) (img : image) (scaleFactor : float) (minNeighbors : Z)
    (k : exn + faces3 -> prog A)
| cvtColor (img : image) (code : color_code) (k : exn + gray_image -> prog A)
| detectMultiScale (c : classifier) (img : gray_image) (scaleFactor : float) (minNeighbors : Z)
    (k : exn + list rect -> prog A).
Arguments Ret {A} _.
Arguments Raise {A} _.
Arguments detectMultiScale3 {A} _ _ _ _ _.
Arguments cvtColor {A} _ _ _.
Arguments detectMultiScale {A} _ _ _ _ _.

(** Outside a [try], an exception of the callee is raised again. *)
Definition reraise {R : Type} (r : exn + R) : prog R :=
  match r with
  | inl e => Raise e
  | inr v => Ret v
  end.

Fixpoint bind {A B : Type} (p : prog A) (f : A -> prog B) : prog B :=
  match p with
  | Ret a => f a
  | Raise e => Raise e
  | detectMultiScale3 c img sf mn k => detectMultiScale3 c img sf mn (fun r => bind (k r) f)
  | cvtColor img code k => cvtColor img code (fun r => bind (k r) f)
  | detectMultiScale c img sf mn k => detectMultiScale c img sf mn (fun r => bind (k r) f)
  end.

(** [try: p  except: h] with a bare [except], which catches everything. *)
Fixpoint try_except {A : Type} (p : prog A) (h : exn -> prog A) : prog A :=
  match p with
  | Ret a => Ret a
  | Raise e => h e
  | detectMultiScale3 c img sf mn k =>
      detectMultiScale3 c img sf mn (fun r => try_except (k r) h)
  | cvtColor img code k => cvtColor img code (fun r => try_except (k r) h)
  | detectMultiScale c img sf mn k =>
      detectMultiScale c img sf mn (fun r => try_except (k r) h)
  end.

Declare Scope prog_scope.
Delimit Scope prog_scope with prog.
Notation "x <- p ;; k" := (bind p (fun x => k))
  (at level 100, p at next level, right associativity) : prog_scope.
Local Open Scope prog_scope.

(** [d[key]] on a dict: [KeyError] when the key is missing. *)
Definition getitem {V : Type} (d : gmap string V) (key : string) : prog V :=
  match d !! key with
  | Some v => Ret v
  | None => Raise (KeyError key)
  end.

(** [for x in l: s = body(x, s)], the loop state threaded through. *)
Fixpoint for_each {A S : Type} (l : list A) (s : S) (body : A -> S -> prog S) : prog S :=
  match l with
  | [] => Ret s
  | x :: l' => s' <- body x s ;; for_each l' s' body
  end.

(** ** Executions *)

(** One call into OpenCV with its answer. *)
Inductive event : Type :=
| EvDetectMultiScale3 (c : classifier) (img : image) (scaleFactor : float) (minNeighbors : Z)
    (r : exn + faces3)
| EvCvtColor (img : image) (code : color_code) (r : exn + gray_image)
| EvDetectMultiScale (c : classifier) (img : gray_image) (scaleFactor : float) (minNeighbors : Z)
    (r : exn + list rect).

(** [exec p t res]: [p] can make the calls of [t], get the answers recorded
    there, and end with [res].  The answers are not determined by the calls:
    OpenCV may answer the same call differently each time. *)
Fixpoint exec {A : Type} (p : prog A) (t : list event) (res : exn + A) : Prop :=
  match p with
  | Ret a => t = [] /\ res = inr a
  | Raise e => t = [] /\ res = inl e
  | detectMultiScale3 c img sf mn k =>
      exists r t', t = EvDetectMultiScale3 c img sf mn r :: t' /\ exec (k r) t' res
  | cvtColor img code k =>
      exists r t', t = EvCvtColor img code r :: t' /\ exec (k r) t' res
  | detectMultiScale c img sf mn k =>
      exists r t', t = EvDetectMultiScale c img sf mn r :: t' /\ exec (k r) t' res
  end.

(** An OpenCV that answers each call as a function of its arguments. *)
Record cv2_env : Type := mk_cv2_env {
  cv2_detectMultiScale3 : classifier -> image -> float -> Z -> exn + faces3;
  cv2_cvtColor : image -> color_code -> exn + gray_image;
  cv2_detectMultiScale : classifier -> gray_image -> float -> Z -> exn + list rect
}.

(** Running a program against such an OpenCV: the calls made and the
    outcome. *)
Fixpoint run {A : Type} (cv2 : cv2_env) (p : prog A) : list event * (exn + A) :=
  match p with
  | Ret a => ([], inr a)
  | Raise e => ([], inl e)
  | detectMultiScale3 c img sf mn k =>
      let r := cv2_detectMultiScale3 cv2 c img sf mn in
      let '(t, res) := run cv2 (k r) in
      (EvDetectMultiScale3 c img sf mn r :: t, res)
  | cvtColor img code k =>
      let r := cv2_cvtColor cv2 img code in
      let '(t, res) := run cv2 (k r) in
      (EvCvtColor img code r :: t, res)
  | detectMultiScale c img sf mn k =>
      let r := cv2_detectMultiScale cv2 c img sf mn in
      let '(t, res) := run cv2 (k r) in
      (EvDetectMultiScale c img sf mn r :: t, res)
  end.

(** A result that is a value, not an exception. *)
Definition returned {R : Type} (r : exn + R) : Prop :=
  match r with
  | inl _ => False
  | inr _ => True
  end.

(** The answer of an event is a value. *)
Definition answered (ev : event) : Prop :=
  match ev with
  | EvDetectMultiScale3 _ _ _ _ r => returned r
  | EvCvtColor _ _ r => returned r
  | EvDetectMultiScale _ _ _ _ r => returned r
  end.

(** ** [find_eyes] *)

(** [sorted(l, key=key, reverse=True)].  Python's sort is stable, also with
    [reverse=True]: elements with equal keys keep their order.  [insert_desc]
    puts [v], which stood before everything in [l], ahead of the first
    element whose key is not greater than its own. *)
Fixpoint insert_desc {A : Type} (key : A -> Z) (v : A) (l : list A) : list A :=
  match l with
  | [] => [v]
  | u :: l' => if key v <? key u then u :: insert_desc key v l' else v :: u :: l'
  end.

Fixpoint sorted_reverse {A : Type} (key : A -> Z) (l : list A) : list A :=
  match l with
  | [] => []
  | v :: l' => insert_desc key v (sorted_reverse key l')
  end.

(** [lambda v: abs(v[2] * v[3])] (line 110).  [v[2]] and [v[3]] are
    [int32] values: the product wraps, and so does [abs] at [-2^31]. *)
Definition eye_key (v : rect) : Z := int32 (Z.abs (int32 (rw v * rh v))).
Arguments eye_key : simpl never.

(** [a / b] on integers is Python's true division, and [int(f)] truncates
    towards zero.  For 32-bit coordinates the floats [w / 2] and
    [x + w / 2] are exact (a binary64 number has 53 significant bits), so
    the rationals give the same values. *)
Definition true_div (a b : Z) : Q := inject_Z a / inject_Z b.
Definition py_int (q : Q) : Z := Z.quot (Qnum q) (Zpos (Qden q)).

(** [(int(eye[0] + (eye[2] / 2)), int(eye[1] + (eye[3] / 2)))]
    (lines 128-132). *)
Definition eye_center (eye : rect) : point :=
  (py_int (inject_Z (rx eye) + true_div (rw eye) 2),
   py_int (inject_Z (ry eye) + true_div (rh eye) 2)).

(** Lines 110-133 of [find_eyes]: what is returned for the rectangles [eyes]
    of the eye cascade. *)
Definition find_eyes_of (eyes : list rect) : option point * option point :=
  let left_eye : option point := None in
  let right_eye : option point := None in
  let eyes := sorted_reverse eye_key eyes in
  match eyes with
  | eye_1 :: eye_2 :: _ =>
      let '(left_eye, right_eye) :=
        if rx eye_1 <? rx eye_2 then (eye_1, eye_2) else (eye_2, eye_1) in
      (Some (eye_center left_eye), Some (eye_center right_eye))
  | _ => (left_eye, right_eye)
  end.

(** [OpenCvClient.find_eyes] (lines 82-133). *)
Definition find_eyes (self : OpenCvClient) (img : image)
  : prog (option point * option point) :=
  let left_eye : option point := None in
  let right_eye : option point := None in
  if (shape0 img =? 0) || (shape1 img =? 0) then Ret (left_eye, right_eye)
  else
    detected_face_gray <- cvtColor img COLOR_BGR2GRAY reraise ;;
    eye_detector <- getitem (model self) "eye_detector" ;;
    eyes <- detectMultiScale eye_detector detected_face_gray float_1_1 10 reraise ;;
    Ret (find_eyes_of eyes).

(** ** [detect_faces] *)

Section Detection.

(** The rotation of [detection.align_face], which is floating-point image
    processing outside this module. *)
Variable rotate : image -> point -> point -> image.

(** Modelled from the spec: [deepface.modules.detection.align_face] is not
    among the sources.  Section 4.4: "If either eye is absent, return
    [face_image] unchanged (alignment is a no-op, not an error)", otherwise
    the image is rotated about its centre so that the eye line is level. *)
Definition align_face (img : image) (left_eye right_eye : option point) : image :=
  match left_eye, right_eye with
  | Some l, Some r => rotate img l r
  | _, _ => img
  end.

(** The body of the [try] (lines 62-64): on success [faces] and [scores] are
    bound. *)
Definition detect_faces_try (self : OpenCvClient) (img : image)
  : prog (list rect * option (list score)) :=
  face_detector <- getitem (model self) "face_detector" ;;
  r <- detectMultiScale3 face_detector img float_1_1 10 reraise ;;
  let '(faces, _, scores) := r in
  Ret (faces, Some scores).

(** The body of the loop (lines 70-78) for one candidate [face] with its
    [confidence]; [resp] is the list built so far. *)
Definition detect_faces_body (self : OpenCvClient) (img : image) (align : bool)
    (fc : rect * score) (resp : list (image * rect * score))
  : prog (list (image * rect * score)) :=
  let '(face, confidence) := fc in
  let detected_face := crop img face in
  detected_face <-
    (if align then
       eyes <- find_eyes self detected_face ;;
       let '(left_eye, right_eye) := eyes in
       Ret (align_face detected_face left_eye right_eye)
     else Ret detected_face) ;;
  let img_region := face in
  Ret (resp ++ [(detected_face, img_region, confidence)]).

(** [OpenCvClient.detect_faces] (lines 28-80).  [scores] is unbound when the
    [try] body raised, which is [None] here. *)
Definition detect_faces (self : OpenCvClient) (img : image) (align : bool)
  : prog (list (image * rect * score)) :=
  let resp : list (image * rect * score) := [] in
  let detected_face : option image := None in
  let img_region := mk_rect 0 0 (shape1 img) (shape0 img) in
  let faces : list rect := [] in
  fs <- try_except (detect_faces_try self img) (fun _ => Ret (faces, None)) ;;
  let '(faces, scores) := fs in
  if (0 <? Z.of_nat (length faces)) then
    match scores with
    | None => Raise (UnboundLocalError "scores")
    | Some scores =>
        for_each (zip faces scores) resp (detect_faces_body self img align)
    end
  else Ret resp.

(** Where the face of a result comes from: the crop of [img] at [region],
    rotated by [align_face] with the eyes [find_eyes] found on that crop
    when [align] is set. *)
Definition derived_from (self : OpenCvClient) (img : image) (align : bool)
    (region : rect) (face : image) : Prop :=
  if align then
    exists left_eye right_eye t,
      exec (find_eyes self (crop img region)) t (inr (left_eye, right_eye)) /\
      face = align_face (crop img region) left_eye right_eye
  else face = crop img region.

End Detection.

(** ** The vocabulary of the specification *)

(** The area of a rectangle, width times height. *)
Definition area (v : rect) : Z := rw v * rh v.

(** A list of rectangles in descending order of area. *)
Definition descending_area (l : list rect) : Prop :=
  StronglySorted (fun u v => area v <= area u) l.

(** A candidate rectangle as a cascade reports it: sizes are not negative. *)
Definition rect_wf (v : rect) : Prop := 0 <= rw v /\ 0 <= rh v.

(** The area of the candidate is a 32-bit integer, as that of every
    rectangle inside an image of fewer than 2^31 pixels. *)
Definition area_fits (v : rect) : Prop := rw v * rh v < 2 ^ 31.

(** Integer truncation of a rational: the fraction is dropped, towards
    zero. *)
Definition truncate (q : Q) : Z :=
  if Qle_bool 0 q then Qfloor q else Qceiling q.

(** The centre of a rectangle, [(x + width/2, y + height/2)],
    integer-truncated. *)
Definition center_truncated (v : rect) : point :=
  (truncate (inject_Z (rx v) + inject_Z (rw v) / 2),
   truncate (inject_Z (ry v) + inject_Z (rh v) / 2)).

(** The eye cascade answered with the rectangles [eyes] in the trace [t]. *)
Definition eye_cascade_returned (t : list event) (eyes : list rect) : Prop :=
  exists c g sf mn, In (EvDetectMultiScale c g sf mn (inr eyes)) t.

(** The sentence "given candidates at x=10 and x=50 in either detection
    order, the left centre x is less than the right centre x", as the
    specification states it. *)
Definition left_center_before_right_claim : Prop :=
  forall (a b : rect) (eyes : list rect) (l r : point),
    rect_wf a -> rect_wf b -> rx a = 10 -> rx b = 50 ->
    eyes = [a; b] \/ eyes = [b; a] ->
    find_eyes_of eyes = (Some l, Some r) ->
    fst l < fst r.

(** The face cascade was called first in [t] and raised or answered with no
    rectangle. *)
Definition zero_candidates (t : list event) : Prop :=
  match t with
  | EvDetectMultiScale3 _ _ _ _ (inl _) :: _ => True
  | EvDetectMultiScale3 _ _ _ _ (inr (faces, _, _)) :: _ => faces = []
  | _ => False
  end.

(** The region [[x, y, w, h]] of the second component of a result tuple and
    its third component. *)
Definition region_of (x : image * rect * score) : rect := snd (fst x).
Definition confidence_of (x : image * rect * score) : score := snd x.
Definition face_of (x : image * rect * score) : image := fst (fst x).

(** What a result tuple has to do with the candidate it was made for. *)
Definition made_for (rotate : image -> point -> point -> image)
    (self : OpenCvClient) (img : image) (align : bool)
    (fc : rect * score) (x : image * rect * score) : Prop :=
  region_of x = fst fc /\ confidence_of x = snd fc /\
  derived_from rotate self img align (fst fc) (face_of x).

(** The sentence "with zero candidates [detect] returns a single-element
    sequence whose region is the full image bounds (0, 0, width, height)",
    as the specification states it (the face of that element is left
    open). *)
Definition whole_image_fallback_claim (rotate : image -> point -> point -> image) : Prop :=
  forall self img align t res,
    exec (detect_faces rotate self img align) t res ->
    zero_candidates t ->
    exists x, res = inr [x] /\
      region_of x = mk_rect 0 0 (shape1 img) (shape0 img).

(** The sentence "for every candidate list of length n >= 1 with n
    matching scores, [detect] returns exactly n result tuples", as the
    specification states it. *)
Definition one_tuple_per_candidate_claim
    (rotate : image -> point -> point -> image) : Prop :=
  forall self img align c sf mn faces levels scores t res (n : nat),
    exec (detect_faces rotate self img align)
      (EvDetectMultiScale3 c img sf mn (inr (faces, levels, scores)) :: t) res ->
    length faces = n -> length scores = n -> (1 <= n)%nat ->
    exists resp, res = inr resp /\ length resp = n.

(** The rectangle [r] lies inside [img], an image OpenCV can search: its
    height and width are 32-bit integers. *)
Definition inside {P : Type} (r : rect) (img : ndarray P) : Prop :=
  0 <= rx r /\ 0 <= ry r /\ 0 <= rw r /\ 0 <= rh r /\
  rx r + rw r <= shape1 img < 2 ^ 31 /\ ry r + rh r <= shape0 img < 2 ^ 31.

(** ** Vocabulary of the further properties *)

(** The character [c] occurs in [s]. *)
Fixpoint occurs (c : ascii) (s : string) : bool :=
  match s with
  | EmptyString => false
  | String d s' => Ascii.eqb d c || occurs c s'
  end.

(** [s] with every [old] character replaced by [new]. *)
Fixpoint replace_char (old new : ascii) (s : string) : string :=
  match s with
  | EmptyString => EmptyString
  | String d s' => String (if Ascii.eqb d old then new else d) (replace_char old new s')
  end.

(** The call recorded in [ev] raised [e]. *)
Definition raised (ev : event) (e : exn) : Prop :=
  match ev with
  | EvDetectMultiScale3 _ _ _ _ r => r = inl e
  | EvCvtColor _ _ r => r = inl e
  | EvDetectMultiScale _ _ _ _ r => r = inl e
  end.

(** The call recorded in [ev] belongs to the eye stage: the grey conversion
    or the eye cascade. *)
Definition eye_stage (ev : event) : Prop :=
  match ev with
  | EvDetectMultiScale3 _ _ _ _ _ => False
  | _ => True
  end.


(** ** Concrete surroundings used in the examples *)

Definition env_posix (isfile : string -> bool) : py_env :=
  mk_py_env "/usr/lib/python3/site-packages/cv2/__init__.py" "/" isfile.

Definition data_dir : string := "/usr/lib/python3/site-packages/cv2/data/".

Definition face_xml : string := data_dir +:+ "haarcascade_frontalface_default.xml".
Definition eye_xml : string := data_dir +:+ "haarcascade_eye.xml".

Definition client0 : OpenCvClient :=
  mk_OpenCvClient
    (<["eye_detector" := CascadeClassifier eye_xml]>
       (<["face_detector" := CascadeClassifier face_xml]> ∅)).

(** An image with no rows, [shape == (0, 5, 3)]. *)
Definition no_rows : image := mk_ndarray 5 [].

(** A 4 x 4 black image and its grey version. *)
Definition black : image :=
  mk_ndarray 4 (repeat (repeat (0, 0, 0) 4) 4).
Definition black_gray : gray_image :=
  mk_ndarray 4 (repeat (repeat 0 4) 4).

(** Three eye candidates of areas 100, 400 and 225, and the trace of a
    [find_eyes] call in which the eye cascade answers with them. *)
Definition eyes_100_400_225 : list rect :=
  [mk_rect 30 12 10 10; mk_rect 8 10 20 20; mk_rect 40 11 15 15].

Definition find_eyes_trace (g : gray_image) (eyes : list rect) : list event :=
  [EvCvtColor black COLOR_BGR2GRAY (inr g);
   EvDetectMultiScale (CascadeClassifier eye_xml) g float_1_1 10 (inr eyes)].

(** No rotation at all, for the examples. *)
Definition rotate_none (img : image) (left_eye right_eye : point) : image := img.

(** Two face candidates on the black image with their scores, and the
    answer of the face cascade that reports them. *)
Definition face_a : rect := mk_rect 0 0 2 2.
Definition face_b : rect := mk_rect 1 1 3 3.

Definition two_faces : event :=
  EvDetectMultiScale3 (CascadeClassifier face_xml) black float_1_1 10
    (inr ([face_a; face_b], [20; 20], [5%float; 3.5%float])).

Definition two_results : list (image * rect * score) :=
  [(crop black face_a, face_a, 5%float); (crop black face_b, face_b, 3.5%float)].

(** The calls of [detect_faces] with [align] set when the face cascade
    reports the two candidates: the eye stage finds no eye on the first crop
    and a single one on the second. *)
Definition two_faces_aligned : list event :=
  [two_faces;
   EvCvtColor (crop black face_a) COLOR_BGR2GRAY (inr (crop black_gray face_a));
   EvDetectMultiScale (CascadeClassifier eye_xml) (crop black_gray face_a)
     float_1_1 10 (inr []);
   EvCvtColor (crop black face_b) COLOR_BGR2GRAY (inr (crop black_gray face_b));
   EvDetectMultiScale (CascadeClassifier eye_xml) (crop black_gray face_b)
     float_1_1 10 (inr [mk_rect 0 0 1 1])].

(** The face cascade finds nothing on the black image. *)
Definition no_faces : event :=
  EvDetectMultiScale3 (CascadeClassifier face_xml) black float_1_1 10
    (inr ([], [], [])).

(** Objects whose model lacks one of the two classifiers. *)
Definition client_no_face : OpenCvClient :=
  mk_OpenCvClient (<["eye_detector" := CascadeClassifier eye_xml]> ∅).
Definition client_no_eye : OpenCvClient :=
  mk_OpenCvClient (<["face_detector" := CascadeClassifier face_xml]> ∅).

(** A candidate of height zero and one that sticks out of the black image
    at the right and at the bottom. *)
Definition face_flat : rect := mk_rect 1 1 2 0.
Definition face_out : rect := mk_rect 2 3 5 5.

(** The face cascade reports one candidate and the grey conversion of its
    crop raises. *)
Definition one_face_then_raise : list event :=
  [EvDetectMultiScale3 (CascadeClassifier face_xml) black float_1_1 10
     (inr ([face_a], [20], [5%float]));
   EvCvtColor (crop black face_a) COLOR_BGR2GRAY
     (inl (Exception_ "cv2.error" "Invalid number of channels in input image"))].

(** Three squares of sides 50000, 46000 and 45000: the area of the first
    is not a 32-bit integer. *)
Definition eyes_huge : list rect :=
  [mk_rect 0 0 50000 50000; mk_rect 10 0 46000 46000; mk_rect 20 0 45000 45000].

(** * Properties *)

(** ** The model store *)

Lemma get_opencv_path_posix isfile :
  __get_opencv_path (env_posix isfile) = inr data_dir.
Proof. reflexivity. Qed.

Lemma unimplemented_not_asset_missing name path :
  unimplemented name <> asset_missing path.
Proof. unfold unimplemented, asset_missing. discriminate. Qed.

Lemma build_cascade_face env dir :
  __get_opencv_path env = inr dir ->
  __build_cascade env "haarcascade" =
    let path := dir +:+ "haarcascade_frontalface_default.xml" in
    if os_path_isfile env path then inr (CascadeClassifier path)
    else inl (asset_missing path).
Proof.
  intros Hdir. unfold __build_cascade. rewrite Hdir. simpl.
  destruct (os_path_isfile env _); reflexivity.
Qed.

Lemma build_cascade_eye env dir :
  __get_opencv_path env = inr dir ->
  __build_cascade env "haarcascade_eye" =
    let path := dir +:+ "haarcascade_eye.xml" in
    if os_path_isfile env path then inr (CascadeClassifier path)
    else inl (asset_missing path).
Proof.
  intros Hdir. unfold __build_cascade. rewrite Hdir. simpl.
  destruct (os_path_isfile env _); reflexivity.
Qed.

Lemma build_cascade_other env dir name :
  __get_opencv_path env = inr dir ->
  name <> "haarcascade" -> name <> "haarcascade_eye" ->
  __build_cascade env name = inl (unimplemented name).
Proof.
  intros Hdir Hf He. unfold __build_cascade. rewrite Hdir.
  apply String.eqb_neq in Hf, He. rewrite Hf, He. reflexivity.
Qed.

(** Whatever [build_model] raises is the [IndexError] of the path
    derivation or a missing-asset error. *)
Lemma build_model_errors env e :
  build_model env = inl e ->
  (exists msg, e = IndexError msg) \/ (exists path, e = asset_missing path).
Proof.
  unfold build_model.
  destruct (__get_opencv_path env) as [e0|dir] eqn:Hdir.
  - unfold __build_cascade. rewrite Hdir. simpl. intros [= <-].
    unfold __get_opencv_path in Hdir.
    destruct (slice_0_m1 _); [|discriminate]. injection Hdir as <-. eauto.
  - rewrite (build_cascade_face env dir Hdir), (build_cascade_eye env dir Hdir).
    simpl. destruct (os_path_isfile env _).
    + destruct (os_path_isfile env _); [discriminate|]. intros [= <-]. eauto.
    + intros [= <-]. eauto.
Qed.

(** C9: when the data directory resolves, [build_model] either returns the
    dict with both classifiers, or raises the missing-asset [ValueError] that
    carries the expected path of the first absent file; a returned dict
    always has both keys; an unknown cascade name makes [__build_cascade]
    raise another [ValueError], different from every missing-asset one. *)
Theorem build_model_all_or_nothing (env : py_env) (dir : string) :
  __get_opencv_path env = inr dir ->
  let face_path := dir +:+ "haarcascade_frontalface_default.xml" in
  let eye_path := dir +:+ "haarcascade_eye.xml" in
  (os_path_isfile env face_path = true -> os_path_isfile env eye_path = true ->
     exists m, build_model env = inr m /\
       m !! "face_detector" = Some (CascadeClassifier face_path) /\
       m !! "eye_detector" = Some (CascadeClassifier eye_path)) /\
  (os_path_isfile env face_path = false ->
     build_model env = inl (asset_missing face_path)) /\
  (os_path_isfile env face_path = true -> os_path_isfile env eye_path = false ->
     build_model env = inl (asset_missing eye_path)) /\
  (forall path, exists before after, asset_missing path = ValueError [before; path; after]) /\
  (forall m, build_model env = inr m ->
     is_Some (m !! "face_detector") /\ is_Some (m !! "eye_detector")) /\
  (forall name, name <> "haarcascade" -> name <> "haarcascade_eye" ->
     __build_cascade env name = inl (unimplemented name) /\
     forall path, unimplemented name <> asset_missing path).
Proof.
  intros Hdir face_path eye_path.
  assert (Hbm : build_model env =
    if os_path_isfile env face_path then
      if os_path_isfile env eye_path then
        inr (<["eye_detector" := CascadeClassifier eye_path]>
               (<["face_detector" := CascadeClassifier face_path]> ∅))
      else inl (asset_missing eye_path)
    else inl (asset_missing face_path)).
  { unfold build_model.
    rewrite (build_cascade_face env dir Hdir), (build_cascade_eye env dir Hdir).
    simpl. fold face_path eye_path.
    destruct (os_path_isfile env face_path); [|reflexivity].
    destruct (os_path_isfile env eye_path); reflexivity. }
  repeat split.
  - intros Hf He. rewrite Hbm, Hf, He. eexists. split; [reflexivity|].
    split.
    + rewrite lookup_insert_ne by discriminate. apply lookup_insert_eq.
    + apply lookup_insert_eq.
  - intros Hf. rewrite Hbm, Hf. reflexivity.
  - intros Hf He. rewrite Hbm, Hf, He. reflexivity.
  - intros path. unfold asset_missing. eauto.
  - rewrite Hbm in H.
    destruct (os_path_isfile env face_path); [|discriminate].
    destruct (os_path_isfile env eye_path); [|discriminate].
    injection H as <-. rewrite lookup_insert_ne by discriminate.
    rewrite lookup_insert_eq. eauto.
  - rewrite Hbm in H.
    destruct (os_path_isfile env face_path); [|discriminate].
    destruct (os_path_isfile env eye_path); [|discriminate].
    injection H as <-. rewrite lookup_insert_eq. eauto.
  - apply (build_cascade_other env dir); assumption.
  - intros path. apply unimplemented_not_asset_missing.
Qed.

(** C10: no construction through [__init__] or [build_model] ends in the
    "unimplemented model_name" error, whatever the surroundings and whatever
    name the message would carry: the two calls made pass "haarcascade" and
    "haarcascade_eye", for which [__build_cascade] does not take that
    branch. *)
Theorem build_model_never_unimplemented (env : py_env) (name : string) :
  __build_cascade env "haarcascade" <> inl (unimplemented name) /\
  __build_cascade env "haarcascade_eye" <> inl (unimplemented name) /\
  build_model env <> inl (unimplemented name) /\
  __init__ env <> inl (unimplemented name).
Proof.
  assert (Hbm : build_model env <> inl (unimplemented name)).
  { intros H. apply build_model_errors in H as [[msg H]|[path H]].
    - discriminate H.
    - exact (unimplemented_not_asset_missing _ _ H). }
  repeat split.
  - unfold __build_cascade. destruct (__get_opencv_path env) as [e|dir] eqn:Hdir.
    + unfold __get_opencv_path in Hdir. destruct (slice_0_m1 _); [|discriminate].
      injection Hdir as <-. discriminate.
    + simpl. destruct (negb _); [|discriminate].
      unfold asset_missing, unimplemented. discriminate.
  - unfold __build_cascade. destruct (__get_opencv_path env) as [e|dir] eqn:Hdir.
    + unfold __get_opencv_path in Hdir. destruct (slice_0_m1 _); [|discriminate].
      injection Hdir as <-. discriminate.
    + simpl. destruct (negb _); [|discriminate].
      unfold asset_missing, unimplemented. discriminate.
  - exact Hbm.
  - unfold __init__. destruct (build_model env) as [e|m] eqn:Hb; [|discriminate].
    intros [= ->]. apply Hbm. reflexivity.
Qed.

(** ** Executions of programs *)

(** An execution on given data is checked call by call: each event of the
    trace is matched with the next call of the program. *)
Ltac exec_step := eexists; eexists; split; [reflexivity|].
Ltac exec_done := split; reflexivity.

Ltac exec_call IH :=
  split;
  [ intros (r & t' & -> & H);
    apply IH in H as [(e & H & ->)|(a & t1 & t2 & H1 & H2 & ->)];
    [ left; exists e; split; [exists r, t'; auto | reflexivity]
    | right; exists a; eexists; exists t2;
      split; [exists r, t1; split; [reflexivity|exact H1]
             | split; [exact H2|reflexivity]] ]
  | intros [(e & (r & t' & -> & H) & ->)|(a & t1 & t2 & (r & t' & -> & H1) & H2 & ->)];
    [ exists r, t'; split; [reflexivity|]; apply IH; left; eauto
    | exists r, (t' ++ t2); split; [reflexivity|]; apply IH; right; eauto 10 ] ].

(** An execution of [x <- p ;; f x] is an execution of [p] that raises, or
    one that returns followed by an execution of [f]. *)
Lemma exec_bind {A B : Type} (p : prog A) (f : A -> prog B) t res :
  exec (bind p f) t res <->
  (exists e, exec p t (inl e) /\ res = inl e) \/
  (exists a t1 t2, exec p t1 (inr a) /\ exec (f a) t2 res /\ t = t1 ++ t2).
Proof.
  revert t.
  induction p as [a|e|c img sf mn k IH|img code k IH|c img sf mn k IH];
    intros t; simpl.
  - split.
    + intros H. right. exists a, [], t. auto.
    + intros [(e & [_ He] & _)|(a' & t1 & t2 & [-> Ha] & Hf & ->)];
        [discriminate|]. injection Ha as <-. exact Hf.
  - split.
    + intros [-> ->]. left. eauto.
    + intros [(e' & [-> He] & ->)|(a' & t1 & t2 & [_ Ha] & _)];
        [injection He as ->; auto|discriminate].
  - exec_call IH.
  - exec_call IH.
  - exec_call IH.
Qed.

(** Every program runs to an outcome against every OpenCV. *)
Lemma run_exec {A : Type} (cv2 : cv2_env) (p : prog A) :
  exec p (fst (run cv2 p)) (snd (run cv2 p)).
Proof.
  induction p as [a|e|c img sf mn k IH|img code k IH|c img sf mn k IH]; simpl;
    try (split; reflexivity).
  - specialize (IH (cv2_detectMultiScale3 cv2 c img sf mn)).
    destruct (run cv2 (k _)) as [t res]. simpl in *. eauto.
  - specialize (IH (cv2_cvtColor cv2 img code)).
    destruct (run cv2 (k _)) as [t res]. simpl in *. eauto.
  - specialize (IH (cv2_detectMultiScale cv2 c img sf mn)).
    destruct (run cv2 (k _)) as [t res]. simpl in *. eauto.
Qed.

(** ** [find_eyes] *)

(** All executions of [find_eyes]. *)
Lemma find_eyes_exec self img t res :
  exec (find_eyes self img) t res ->
  ((shape0 img = 0 \/ shape1 img = 0) /\ t = [] /\ res = inr (None, None)) \/
  (shape0 img <> 0 /\ shape1 img <> 0 /\
   exists rg t', t = EvCvtColor img COLOR_BGR2GRAY rg :: t' /\
     match rg with
     | inl e => t' = [] /\ res = inl e
     | inr g =>
         match model self !! "eye_detector" with
         | None => t' = [] /\ res = inl (KeyError "eye_detector")
         | Some c =>
             exists re, t' = [EvDetectMultiScale c g float_1_1 10 re] /\
               res = match re with
                     | inl e => inl e
                     | inr eyes => inr (find_eyes_of eyes)
                     end
         end
     end).
Proof.
  unfold find_eyes.
  destruct (shape0 img =? 0) eqn:H0; simpl.
  { intros [-> ->]. left. apply Z.eqb_eq in H0. auto. }
  destruct (shape1 img =? 0) eqn:H1; simpl.
  { intros [-> ->]. left. apply Z.eqb_eq in H1. auto. }
  apply Z.eqb_neq in H0, H1.
  intros (rg & t' & -> & H). right. split; [assumption|]. split; [assumption|].
  exists rg, t'. split; [reflexivity|].
  destruct rg as [e|g]; simpl in H; [exact H|].
  unfold getitem in H. destruct (model self !! "eye_detector") as [c|]; simpl in H;
    [|exact H].
  destruct H as (re & t'' & -> & H). exists re.
  destruct re as [e|eyes]; simpl in H; destruct H as [-> ->]; auto.
Qed.

(** In a non-raising execution that reached the eye cascade, the result is
    [find_eyes_of] of its answer. *)
Lemma find_eyes_exec_eyes self img t res eyes :
  exec (find_eyes self img) t res ->
  eye_cascade_returned t eyes ->
  res = inr (find_eyes_of eyes).
Proof.
  intros H (c & g & sf & mn & Hin).
  apply find_eyes_exec in H as [(_ & -> & _)|(_ & _ & rg & t' & -> & H)].
  { destruct Hin. }
  destruct Hin as [Hin|Hin]; [discriminate|].
  destruct rg as [e|g']; [destruct H as [-> _]; destruct Hin|].
  destruct (model self !! "eye_detector"); [|destruct H as [-> _]; destruct Hin].
  destruct H as (re & -> & ->).
  destruct Hin as [Hin|[]]. injection Hin as _ _ _ _ ->. reflexivity.
Qed.

(** *** The stable descending sort *)

Lemma insert_desc_perm {A : Type} (key : A -> Z) v l :
  Permutation (insert_desc key v l) (v :: l).
Proof.
  induction l as [|u l IH]; simpl; [reflexivity|].
  destruct (key v <? key u); [|reflexivity].
  rewrite IH. apply perm_swap.
Qed.

Lemma sorted_reverse_perm {A : Type} (key : A -> Z) l :
  Permutation (sorted_reverse key l) l.
Proof.
  induction l as [|v l IH]; simpl; [reflexivity|].
  rewrite insert_desc_perm. constructor. exact IH.
Qed.

Lemma sorted_reverse_length {A : Type} (key : A -> Z) (l : list A) :
  length (sorted_reverse key l) = length l.
Proof. apply Permutation_length, sorted_reverse_perm. Qed.

Lemma insert_desc_sorted {A : Type} (key : A -> Z) v l :
  StronglySorted (fun a b => key b <= key a) l ->
  StronglySorted (fun a b => key b <= key a) (insert_desc key v l).
Proof.
  induction 1 as [|u l Hs IH Hu]; simpl.
  - repeat constructor.
  - destruct (key v <? key u) eqn:Hlt.
    + apply Z.ltb_lt in Hlt. constructor; [exact IH|].
      rewrite List.Forall_forall. intros b Hb.
      apply (Permutation_in _ (insert_desc_perm key v l)) in Hb as [<-|Hb].
      * lia.
      * rewrite List.Forall_forall in Hu. apply Hu, Hb.
    + apply Z.ltb_ge in Hlt. constructor; [constructor; assumption|].
      constructor; [exact Hlt|].
      rewrite List.Forall_forall in *. intros b Hb. specialize (Hu b Hb). lia.
Qed.

Lemma sorted_reverse_sorted {A : Type} (key : A -> Z) (l : list A) :
  StronglySorted (fun a b => key b <= key a) (sorted_reverse key l).
Proof.
  induction l as [|v l IH]; simpl; [constructor|].
  apply insert_desc_sorted, IH.
Qed.

(** A 32-bit value is not changed by the wrap. *)
Lemma int32_small z : - 2 ^ 31 <= z < 2 ^ 31 -> int32 z = z.
Proof. intros Hz. unfold int32. rewrite Z.mod_small by lia. lia. Qed.

Lemma eye_key_area v : rect_wf v /\ area_fits v -> eye_key v = area v.
Proof.
  intros [[Hw Hh] Hfit]. unfold area_fits in Hfit. unfold eye_key, area.
  assert (0 <= rw v * rh v) by nia.
  rewrite (int32_small (rw v * rh v)) by lia.
  rewrite Z.abs_eq by lia. apply int32_small. lia.
Qed.

Lemma sorted_reverse_descending_area eyes :
  Forall (fun v => rect_wf v /\ area_fits v) eyes ->
  descending_area (sorted_reverse eye_key eyes).
Proof.
  intros Hwf.
  assert (Hwf' : Forall (fun v => rect_wf v /\ area_fits v)
                   (sorted_reverse eye_key eyes)).
  { rewrite List.Forall_forall in *. intros v Hv. apply Hwf.
    apply (Permutation_in _ (sorted_reverse_perm eye_key eyes)), Hv. }
  pose proof (sorted_reverse_sorted eye_key eyes) as Hs.
  unfold descending_area. revert Hwf'.
  induction Hs as [|u l Hs IH Hu]; intros Hwf'; constructor.
  - apply IH. inversion Hwf'; assumption.
  - inversion Hwf' as [|? ? Hwu Hwl]; subst.
    rewrite List.Forall_forall in *. intros b Hb.
    rewrite <- (eye_key_area u Hwu), <- (eye_key_area b (Hwl b Hb)).
    apply Hu, Hb.
Qed.

(** A list sorted in descending order of pairwise different keys is the
    only such arrangement of its elements. *)
Lemma descending_unique {A : Type} (key : A -> Z) (s : list A) :
  forall s',
    StronglySorted (fun a b => key b <= key a) s ->
    StronglySorted (fun a b => key b <= key a) s' ->
    Permutation s s' ->
    List.NoDup (List.map key s) ->
    s = s'.
Proof.
  induction s as [|a s IH]; intros s' Hs Hs' Hp Hnd.
  - apply Permutation_nil in Hp. congruence.
  - destruct s' as [|b s'].
    { apply Permutation_sym, Permutation_nil in Hp. discriminate Hp. }
    inversion Hs as [|? ? Hs1 Ha]; subst.
    inversion Hs' as [|? ? Hs1' Hb]; subst.
    inversion Hnd as [|? ? Hnotin Hnd1]; subst.
    rewrite List.Forall_forall in Ha, Hb.
    assert (Hab : a = b).
    { assert (Hina : In a (b :: s')) by (apply (Permutation_in _ Hp); left; reflexivity).
      assert (Hinb : In b (a :: s))
        by (apply (Permutation_in _ (Permutation_sym Hp)); left; reflexivity).
      destruct Hina as [Heq|Hina]; [congruence|].
      destruct Hinb as [Heq|Hinb]; [congruence|].
      exfalso. apply Hnotin.
      assert (Hk : key a = key b).
      { specialize (Ha b Hinb). specialize (Hb a Hina). lia. }
      rewrite Hk. apply in_map, Hinb. }
    subst b. f_equal. apply IH; try assumption.
    eapply Permutation_cons_inv, Hp.
Qed.

(** With pairwise different keys the sorted list does not depend on the
    order of the input. *)
Lemma sorted_reverse_order_free {A : Type} (key : A -> Z) (l l' : list A) :
  Permutation l l' ->
  List.NoDup (List.map key l) ->
  sorted_reverse key l = sorted_reverse key l'.
Proof.
  intros Hp Hnd. apply (descending_unique key).
  - apply sorted_reverse_sorted.
  - apply sorted_reverse_sorted.
  - rewrite !sorted_reverse_perm. exact Hp.
  - eapply Permutation.Permutation_NoDup; [|exact Hnd].
    apply Permutation_map, Permutation_sym, sorted_reverse_perm.
Qed.

(** The eyes found do not depend on the order in which the cascade reports
    candidates of pairwise different areas. *)
Lemma find_eyes_of_order_free (eyes eyes' : list rect) :
  Permutation eyes eyes' ->
  List.NoDup (List.map eye_key eyes) ->
  find_eyes_of eyes = find_eyes_of eyes'.
Proof.
  intros Hp Hnd. unfold find_eyes_of.
  rewrite (sorted_reverse_order_free eye_key eyes eyes' Hp Hnd). reflexivity.
Qed.

(** Two candidates of equal area and equal x swap their roles with their
    order. *)
Example find_eyes_of_tie :
  find_eyes_of [mk_rect 10 0 4 4; mk_rect 10 20 4 4] = (Some (12, 22), Some (12, 2)) /\
  find_eyes_of [mk_rect 10 20 4 4; mk_rect 10 0 4 4] = (Some (12, 2), Some (12, 22)).
Proof. split; reflexivity. Qed.

(** The key is formed in 32 bits: the square of side 50000 has the
    smallest key of [eyes_huge], and the eyes are the centres of the other
    two squares. *)
Example find_eyes_of_wraps :
  List.map eye_key eyes_huge = [1794967296; 2116000000; 2025000000] /\
  find_eyes_of eyes_huge = (Some (23010, 23000), Some (22520, 22500)).
Proof. split; reflexivity. Qed.

(** *** Centres *)

(** Python's [int] on a rational is the truncation of the specification. *)
Lemma py_int_truncate q : py_int q = truncate q.
Proof.
  destruct q as [n d]. unfold py_int, truncate, Qle_bool, Qceiling, Qfloor, Qopp.
  simpl. rewrite Z.mul_1_r. change (0 * Z.pos d) with 0.
  destruct (0 <=? n) eqn:Hn.
  - apply Z.leb_le in Hn. apply Z.quot_div_nonneg; lia.
  - apply Z.leb_gt in Hn.
    rewrite <- (Z.opp_involutive n) at 1. rewrite Z.quot_opp_l by lia.
    rewrite Z.quot_div_nonneg by lia. reflexivity.
Qed.

Lemma eye_center_truncated v : eye_center v = center_truncated v.
Proof.
  unfold eye_center, center_truncated, true_div.
  rewrite !py_int_truncate. reflexivity.
Qed.

(** The centre in integer arithmetic: the doubled sum halved towards
    zero. *)
Lemma eye_center_quot v :
  eye_center v = (Z.quot (2 * rx v + rw v) 2, Z.quot (2 * ry v + rh v) 2).
Proof.
  unfold eye_center, true_div, py_int. simpl.
  change (Z.pos (1 * 2)) with 2. change (Z.pos (1 * (1 * 2))) with 2.
  f_equal; f_equal; ring.
Qed.

(** *** The outcome of [find_eyes] on the answer of the eye cascade *)

Lemma find_eyes_of_short eyes :
  (length eyes < 2)%nat -> find_eyes_of eyes = (None, None).
Proof.
  intros Hlen. unfold find_eyes_of.
  pose proof (sorted_reverse_length eye_key eyes) as Hl.
  destruct (sorted_reverse eye_key eyes) as [|e1 [|e2 rest]]; try reflexivity.
  simpl in Hl. lia.
Qed.

Lemma find_eyes_of_long eyes :
  (2 <= length eyes)%nat ->
  exists eye_1 eye_2 rest,
    sorted_reverse eye_key eyes = eye_1 :: eye_2 :: rest /\
    find_eyes_of eyes =
      if rx eye_1 <? rx eye_2
      then (Some (eye_center eye_1), Some (eye_center eye_2))
      else (Some (eye_center eye_2), Some (eye_center eye_1)).
Proof.
  intros Hlen. unfold find_eyes_of.
  pose proof (sorted_reverse_length eye_key eyes) as Hl.
  destruct (sorted_reverse eye_key eyes) as [|e1 [|e2 rest]];
    try (simpl in Hl; lia).
  exists e1, e2, rest. split; [reflexivity|].
  destruct (rx e1 <? rx e2); reflexivity.
Qed.

(** C3: on an image with zero height or zero width [find_eyes] is the
    program that returns [(None, None)] at once: it has no call to
    [cvtColor] or to the eye cascade in it, so its only execution has the
    empty trace, against every OpenCV. *)
Theorem find_eyes_degenerate (self : OpenCvClient) (img : image) :
  shape0 img = 0 \/ shape1 img = 0 ->
  find_eyes self img = Ret (None, None) /\
  (forall t res, exec (find_eyes self img) t res -> t = [] /\ res = inr (None, None)) /\
  (forall cv2, run cv2 (find_eyes self img) = ([], inr (None, None))).
Proof.
  intros Hdeg.
  assert (Heq : find_eyes self img = Ret (None, None)).
  { unfold find_eyes. destruct Hdeg as [-> | ->]; simpl;
      [reflexivity|]. destruct (shape0 img =? 0); reflexivity. }
  rewrite Heq. split; [reflexivity|]. split.
  - intros t res H. exact H.
  - reflexivity.
Qed.

Lemma find_eyes_degenerate_witness :
  (shape0 no_rows = 0 \/ shape1 no_rows = 0) /\
  find_eyes client0 no_rows = Ret (None, None).
Proof.
  assert (H : shape0 no_rows = 0 \/ shape1 no_rows = 0) by (left; reflexivity).
  split; [exact H|]. exact (proj1 (find_eyes_degenerate client0 no_rows H)).
Defined.

(** C4: when the eye cascade answers with the rectangles [eyes], of
    non-negative sizes and of areas that are 32-bit integers, [find_eyes]
    does not raise.  With fewer than two rectangles it returns
    [(None, None)].  Otherwise the rectangles are put in descending order of
    area (width times height), the two in front, the two largest, are the
    eye pair, and the eyes returned are their centres. *)
Theorem find_eyes_two_largest (self : OpenCvClient) (img : image)
    (t : list event) (res : exn + (option point * option point)) (eyes : list rect) :
  exec (find_eyes self img) t res ->
  eye_cascade_returned t eyes ->
  Forall rect_wf eyes ->
  Forall area_fits eyes ->
  ((length eyes < 2)%nat -> res = inr (None, None)) /\
  ((2 <= length eyes)%nat ->
     exists eye_1 eye_2 rest,
       sorted_reverse eye_key eyes = eye_1 :: eye_2 :: rest /\
       Permutation eyes (eye_1 :: eye_2 :: rest) /\
       descending_area (eye_1 :: eye_2 :: rest) /\
       area eye_2 <= area eye_1 /\
       Forall (fun v => area v <= area eye_2) rest /\
       (res = inr (Some (eye_center eye_1), Some (eye_center eye_2)) \/
        res = inr (Some (eye_center eye_2), Some (eye_center eye_1)))).
Proof.
  intros Hexec Heyes Hwf0 Hfit.
  assert (Hwf : Forall (fun v => rect_wf v /\ area_fits v) eyes).
  { rewrite List.Forall_forall in *. intros v Hv. split; auto. }
  rewrite (find_eyes_exec_eyes self img t res eyes Hexec Heyes).
  split.
  - intros Hlen. rewrite find_eyes_of_short by exact Hlen. reflexivity.
  - intros Hlen.
    destruct (find_eyes_of_long eyes Hlen) as (e1 & e2 & rest & Hs & Hr).
    exists e1, e2, rest.
    pose proof (sorted_reverse_descending_area eyes Hwf) as Hd.
    rewrite Hs in Hd.
    split; [exact Hs|].
    split; [rewrite <- Hs; symmetry; apply sorted_reverse_perm|].
    split; [exact Hd|].
    unfold descending_area in Hd.
    inversion Hd as [|? ? Hd1 H1]; subst.
    inversion Hd1 as [|? ? Hd2 H2]; subst.
    split; [inversion H1; assumption|].
    split; [exact H2|].
    rewrite Hr. destruct (rx e1 <? rx e2); auto.
Qed.

Lemma find_eyes_two_largest_witness :
  let t := find_eyes_trace black_gray eyes_100_400_225 in
  let res := inr (Some (18, 20), Some (47, 18)) in
  exec (find_eyes client0 black) t res /\
  eye_cascade_returned t eyes_100_400_225 /\
  Forall rect_wf eyes_100_400_225 /\
  Forall area_fits eyes_100_400_225 /\
  exists eye_1 eye_2 rest,
    sorted_reverse eye_key eyes_100_400_225 = eye_1 :: eye_2 :: rest /\
    area eye_2 <= area eye_1 /\
    Forall (fun v => area v <= area eye_2) rest.
Proof.
  intros t res.
  assert (H1 : exec (find_eyes client0 black) t res).
  { exec_step. exec_step. exec_done. }
  assert (H2 : eye_cascade_returned t eyes_100_400_225).
  { do 4 eexists. right. left. reflexivity. }
  assert (H3 : Forall rect_wf eyes_100_400_225).
  { repeat constructor; simpl; lia. }
  assert (H4 : Forall area_fits eyes_100_400_225).
  { repeat constructor; unfold area_fits; simpl; lia. }
  split; [exact H1|]. split; [exact H2|]. split; [exact H3|]. split; [exact H4|].
  destruct (find_eyes_two_largest client0 black t res eyes_100_400_225 H1 H2 H3 H4)
    as [_ Hl].
  destruct Hl as (e1 & e2 & rest & Hs & _ & _ & Ha & Hf & _).
  { simpl. lia. }
  exists e1, e2, rest. auto.
Defined.

(** C6: each eye that [find_eyes] returns is the integer-truncated centre
    [(x + width/2, y + height/2)] of one of the two selected rectangles:
    the left eye of one, the right eye of the other. *)
Theorem find_eyes_center (self : OpenCvClient) (img : image)
    (t : list event) (res : exn + (option point * option point))
    (eyes : list rect) (eye_1 eye_2 : rect) (rest : list rect) :
  exec (find_eyes self img) t res ->
  eye_cascade_returned t eyes ->
  sorted_reverse eye_key eyes = eye_1 :: eye_2 :: rest ->
  exists left_eye right_eye,
    (left_eye = eye_1 /\ right_eye = eye_2 \/ left_eye = eye_2 /\ right_eye = eye_1) /\
    res = inr (Some (center_truncated left_eye), Some (center_truncated right_eye)) /\
    eye_center left_eye = center_truncated left_eye /\
    eye_center right_eye = center_truncated right_eye.
Proof.
  intros Hexec Heyes Hs.
  rewrite (find_eyes_exec_eyes self img t res eyes Hexec Heyes).
  unfold find_eyes_of. rewrite Hs.
  destruct (rx eye_1 <? rx eye_2);
    [exists eye_1, eye_2 | exists eye_2, eye_1];
    rewrite <- !eye_center_truncated; auto.
Qed.

Lemma find_eyes_center_witness :
  let t := find_eyes_trace black_gray eyes_100_400_225 in
  let res := inr (Some (18, 20), Some (47, 18)) in
  exec (find_eyes client0 black) t res /\
  eye_cascade_returned t eyes_100_400_225 /\
  sorted_reverse eye_key eyes_100_400_225 =
    [mk_rect 8 10 20 20; mk_rect 40 11 15 15; mk_rect 30 12 10 10] /\
  exists left_eye right_eye,
    res = inr (Some (center_truncated left_eye), Some (center_truncated right_eye)).
Proof.
  intros t res.
  assert (H1 : exec (find_eyes client0 black) t res).
  { exec_step. exec_step. exec_done. }
  assert (H2 : eye_cascade_returned t eyes_100_400_225).
  { do 4 eexists. right. left. reflexivity. }
  assert (H3 : sorted_reverse eye_key eyes_100_400_225 =
    [mk_rect 8 10 20 20; mk_rect 40 11 15 15; mk_rect 30 12 10 10]) by reflexivity.
  split; [exact H1|]. split; [exact H2|]. split; [exact H3|].
  destruct (find_eyes_center client0 black t res eyes_100_400_225 _ _ _ H1 H2 H3)
    as (l & r & _ & Hres & _).
  exists l, r. exact Hres.
Defined.

(** *** Left and right *)

(** Two candidates at x=10 and x=50: the wider one at x=10 has its centre to
    the right of the centre of the one at x=50, and is the left eye. *)
Lemma left_center_after_right :
  find_eyes_of [mk_rect 10 10 120 120; mk_rect 50 40 20 20] =
    (Some (70, 70), Some (60, 50)) /\
  find_eyes_of [mk_rect 50 40 20 20; mk_rect 10 10 120 120] =
    (Some (70, 70), Some (60, 50)) /\
  ~ left_center_before_right_claim.
Proof.
  split; [reflexivity|]. split; [reflexivity|].
  intros Hclaim.
  assert (H : 70 < 60); [|lia].
  apply (Hclaim (mk_rect 10 10 120 120) (mk_rect 50 40 20 20)
           [mk_rect 10 10 120 120; mk_rect 50 40 20 20] (70, 70) (60, 50));
    try reflexivity; try (split; simpl; lia).
  left. reflexivity.
Qed.

(** Two candidates with different x-coordinates, in either order. *)
Lemma find_eyes_of_pair (a b : rect) :
  rx a < rx b ->
  find_eyes_of [a; b] = (Some (eye_center a), Some (eye_center b)) /\
  find_eyes_of [b; a] = (Some (eye_center a), Some (eye_center b)).
Proof.
  intros Hx.
  assert (Hba : (rx b <? rx a) = false) by (apply Z.ltb_ge; lia).
  apply Z.ltb_lt in Hx.
  split; unfold find_eyes_of; simpl;
    destruct (eye_key _ <? eye_key _); simpl; rewrite ?Hx, ?Hba; reflexivity.
Qed.

(** C5 (amended): of the two selected candidates [eye_1] and [eye_2] the
    one with the smaller x-coordinate, [a], gives the left eye and the other,
    [b], the right eye, whichever of the two came first; two candidates
    reported in either order give the same pair.  The eyes are the centres
    of the rectangles, so the left centre is left of the right centre when
    the left rectangle is not too wide:
    [2 x_left + w_left + 2 <= 2 x_right + w_right]. *)
Theorem find_eyes_left_has_smaller_x (self : OpenCvClient) (img : image)
    (t : list event) (res : exn + (option point * option point))
    (eyes : list rect) (eye_1 eye_2 : rect) (rest : list rect) (a b : rect) :
  exec (find_eyes self img) t res ->
  eye_cascade_returned t eyes ->
  sorted_reverse eye_key eyes = eye_1 :: eye_2 :: rest ->
  a = eye_1 /\ b = eye_2 \/ a = eye_2 /\ b = eye_1 ->
  rx a < rx b ->
  res = inr (Some (eye_center a), Some (eye_center b)) /\
  find_eyes_of [a; b] = (Some (eye_center a), Some (eye_center b)) /\
  find_eyes_of [b; a] = (Some (eye_center a), Some (eye_center b)) /\
  (0 <= rx a -> 0 <= rw a ->
   2 * rx a + rw a + 2 <= 2 * rx b + rw b ->
   fst (eye_center a) < fst (eye_center b)).
Proof.
  intros Hexec Heyes Hs Hab Hx.
  rewrite (find_eyes_exec_eyes self img t res eyes Hexec Heyes).
  split; [|split; [apply find_eyes_of_pair, Hx|split; [apply find_eyes_of_pair, Hx|]]].
  - assert (Hba : (rx b <? rx a) = false) by (apply Z.ltb_ge; lia).
    apply Z.ltb_lt in Hx. unfold find_eyes_of. rewrite Hs.
    destruct Hab as [[-> ->]|[-> ->]]; rewrite ?Hx, ?Hba; reflexivity.
  - intros Hxa Hwa Hw. rewrite !eye_center_quot. simpl.
    rewrite !Z.quot_div_nonneg by lia.
    apply Z.div_lt_upper_bound; [lia|].
    pose proof (Z.div_mod (2 * rx b + rw b) 2 ltac:(lia)).
    pose proof (Z.mod_pos_bound (2 * rx b + rw b) 2 ltac:(lia)).
    pose proof (Z.div_mod (2 * rx a + rw a) 2 ltac:(lia)).
    pose proof (Z.mod_pos_bound (2 * rx a + rw a) 2 ltac:(lia)).
    lia.
Qed.

(** ** [detect_faces] *)

Section DetectionProperties.

Variable rotate : image -> point -> point -> image.

(** All executions of [detect_faces]. *)
Lemma detect_faces_exec self img align t res :
  exec (detect_faces rotate self img align) t res <->
  match model self !! "face_detector" with
  | None => t = [] /\ res = inr []
  | Some c =>
      exists r t', t = EvDetectMultiScale3 c img float_1_1 10 r :: t' /\
        match r with
        | inl e => t' = [] /\ res = inr []
        | inr (faces, _, scores) =>
            if 0 <? Z.of_nat (length faces)
            then exec (for_each (zip faces scores) []
                         (detect_faces_body rotate self img align)) t' res
            else t' = [] /\ res = inr []
        end
  end.
Proof.
  unfold detect_faces, detect_faces_try, getitem.
  destruct (model self !! "face_detector") as [c|]; simpl; [|reflexivity].
  split; intros (r & t' & -> & H); exists r, t'; (split; [reflexivity|]).
  - destruct r as [e|[[faces lv] scores]]; simpl in H; [exact H|].
    destruct (0 <? Z.of_nat (length faces)); exact H.
  - destruct r as [e|[[faces lv] scores]]; simpl; [exact H|].
    destruct (0 <? Z.of_nat (length faces)); exact H.
Qed.

(** With the OpenCV calls of the eye stage answered and an eye classifier
    in the model, [find_eyes] returns. *)
Lemma find_eyes_answered self img t res :
  exec (find_eyes self img) t res ->
  Forall answered t ->
  is_Some (model self !! "eye_detector") ->
  returned res.
Proof.
  intros H Ht [c Hc].
  apply find_eyes_exec in H as [(_ & _ & ->)|(_ & _ & rg & t' & -> & H)];
    [exact I|].
  rewrite Hc in H. inversion Ht as [|? ? Hrg Ht']; subst.
  destruct rg as [e|g]; [destruct Hrg|].
  destruct H as (re & -> & ->).
  inversion Ht' as [|? ? Hre _]; subst.
  destruct re as [e|eyes]; [destruct Hre|exact I].
Qed.

(** One turn of the loop appends one tuple, with the candidate's rectangle
    and score, or raises what [find_eyes] raised. *)
Lemma detect_faces_body_exec self img align face conf resp t res :
  exec (detect_faces_body rotate self img align (face, conf) resp) t res ->
  (exists e, res = inl e /\ align = true /\
     exec (find_eyes self (crop img face)) t (inl e)) \/
  (exists df, res = inr (resp ++ [(df, face, conf)]) /\
     derived_from rotate self img align face df /\
     (align = false -> t = [])).
Proof.
  unfold detect_faces_body, derived_from. destruct align; simpl.
  - intros H. apply exec_bind in H as [(e & H & ->)|(df & t1 & t2 & H & [-> ->] & ->)].
    + apply exec_bind in H as [(e' & H & [= <-])|(a & t1 & t2 & _ & H & _)].
      * left. eauto.
      * destruct a as [l r]. destruct H as [_ H]. discriminate H.
    + apply exec_bind in H as [(e' & _ & H)|([l r] & t1' & t2 & H & [-> Hdf] & ->)];
        [discriminate H|].
      injection Hdf as ->. rewrite !app_nil_r.
      right. eexists. split; [reflexivity|]. split; [eauto|discriminate].
  - intros [-> ->]. right. eexists. split; [reflexivity|]. auto.
Qed.

(** The loop appends one tuple per candidate, in order, unless a call of
    the eye stage raised or the eye classifier is missing. *)
Lemma for_each_body_exec self img align l :
  forall resp t res,
    exec (for_each l resp (detect_faces_body rotate self img align)) t res ->
    match res with
    | inr out => exists added, out = resp ++ added /\
                   Forall2 (made_for rotate self img align) l added
    | inl e => ~ (Forall answered t /\
                  (align = true -> is_Some (model self !! "eye_detector")))
    end.
Proof.
  induction l as [|[face conf] l IH]; intros resp t res; simpl.
  - intros [-> ->]. exists []. rewrite app_nil_r. split; [reflexivity|constructor].
  - intros H. apply exec_bind in H as [(e & H & ->)|(a & t1 & t2 & H & Hl & ->)].
    + apply detect_faces_body_exec in H as [(e' & [= <-] & -> & H)|(df & H & _)];
        [|discriminate H].
      intros [Ht Hk]. specialize (Hk eq_refl).
      exact (find_eyes_answered _ _ _ _ H Ht Hk).
    + apply detect_faces_body_exec in H as [(e' & H & _)|(df & [= ->] & Hdf & _)];
        [discriminate H|].
      apply IH in Hl. destruct res as [e|out].
      * intros [Ht Hk]. apply Hl. split; [|exact Hk].
        apply Forall_app in Ht. apply Ht.
      * destruct Hl as (added & -> & Hadded).
        exists ((df, face, conf) :: added). split.
        -- rewrite <- app_assoc. reflexivity.
        -- constructor; [|exact Hadded]. repeat split. exact Hdf.
Qed.

Lemma made_for_regions self img align l added :
  Forall2 (made_for rotate self img align) l added ->
  region_of <$> added = fst <$> l /\ confidence_of <$> added = snd <$> l.
Proof.
  induction 1 as [|fc x l added (Hr & Hc & _) _ [IHr IHc]].
  - split; reflexivity.
  - rewrite !fmap_cons, Hr, Hc, IHr, IHc. split; reflexivity.
Qed.

Lemma made_for_derived self img align l added :
  Forall2 (made_for rotate self img align) l added ->
  Forall (fun x => derived_from rotate self img align (region_of x) (face_of x)) added.
Proof.
  induction 1 as [|fc x l added (Hr & _ & Hd) _ IH]; constructor.
  - rewrite Hr. exact Hd.
  - exact IH.
Qed.

(** The tuples of a returned result were made for some candidates, one
    each. *)
Lemma detect_faces_made_for self img align t resp :
  exec (detect_faces rotate self img align) t (inr resp) ->
  exists candidates, Forall2 (made_for rotate self img align) candidates resp.
Proof.
  intros H. apply detect_faces_exec in H.
  destruct (model self !! "face_detector") as [c|].
  - destruct H as (r & t' & -> & H).
    destruct r as [e|[[faces lv] scores]].
    + destruct H as [_ [= ->]]. exists []. constructor.
    + destruct (0 <? Z.of_nat (length faces)).
      * apply for_each_body_exec in H as (added & -> & H). eauto.
      * destruct H as [_ [= ->]]. exists []. constructor.
  - destruct H as [_ [= ->]]. exists []. constructor.
Qed.

End DetectionProperties.

(** *** Cropping *)

Lemma slice_index_inside i n : 0 <= i <= n -> slice_index i n = i.
Proof.
  intros Hi. unfold slice_index.
  destruct (i <? 0) eqn:Hneg; [apply Z.ltb_lt in Hneg; lia|lia].
Qed.

Lemma py_slice_inside_length {A : Type} (l : list A) (a len : Z) :
  0 <= a -> 0 <= len -> a + len <= Z.of_nat (length l) ->
  length (py_slice a (a + len) l) = Z.to_nat len.
Proof.
  intros Ha Hlen Hl. unfold py_slice, slice_len.
  rewrite !slice_index_inside by lia.
  rewrite length_take, length_drop. lia.
Qed.

Lemma py_slice_inside_lookup {A : Type} (l : list A) (a len : Z) (i : nat) :
  0 <= a -> 0 <= len -> a + len <= Z.of_nat (length l) ->
  Z.of_nat i < len ->
  py_slice a (a + len) l !! i = l !! (Z.to_nat a + i)%nat.
Proof.
  intros Ha Hlen Hl Hi. unfold py_slice, slice_len.
  rewrite !slice_index_inside by lia.
  rewrite lookup_take_lt by lia. apply lookup_drop.
Qed.

(** A rectangle inside the image is cut out pixel for pixel: the crop has
    the rectangle's height and width and its pixel (i, j) is the pixel
    (y + i, x + j) of the image. *)
Lemma crop_inside {P : Type} (img : ndarray P) (r : rect) :
  nd_wf img -> inside r img ->
  shape0 (crop img r) = rh r /\
  shape1 (crop img r) = rw r /\
  forall i j : nat, Z.of_nat i < rh r -> Z.of_nat j < rw r ->
    pixel_at (crop img r) i j =
    pixel_at img (Z.to_nat (ry r) + i) (Z.to_nat (rx r) + j).
Proof.
  intros Hwf (Hx & Hy & Hw & Hh & Hxw & Hyh).
  destruct r as [x y w h]. unfold shape0, shape1 in *. simpl in *.
  rewrite !(int32_small (x + w)), !(int32_small (y + h)) by lia.
  split; [|split].
  - rewrite length_fmap. rewrite py_slice_inside_length by lia. lia.
  - unfold slice_len, shape1. rewrite !slice_index_inside by lia. lia.
  - intros i j Hi Hj. unfold pixel_at. simpl.
    rewrite list_lookup_fmap. rewrite py_slice_inside_lookup by lia.
    destruct (nd_rows img !! (Z.to_nat y + i)%nat) as [row|] eqn:Hrow; simpl;
      [|reflexivity].
    apply py_slice_inside_lookup; try lia.
    unfold nd_wf in Hwf. rewrite List.Forall_forall in Hwf.
    rewrite (Hwf row); [lia|].
    apply list_elem_of_In. eapply list_elem_of_lookup_2. exact Hrow.
Qed.

(** *** The face cascade raises or finds nothing *)

(** On the black image, with a face cascade that finds nothing,
    [detect_faces] returns the empty list, which has no element for the
    whole image. *)
Lemma detect_faces_black_is_empty :
  exec (detect_faces rotate_none client0 black true) [no_faces] (inr []) /\
  ~ whole_image_fallback_claim rotate_none.
Proof.
  assert (H : exec (detect_faces rotate_none client0 black true) [no_faces] (inr [])).
  { exec_step. exec_done. }
  split; [exact H|].
  intros Hclaim.
  destruct (Hclaim client0 black true [no_faces] (inr []) H eq_refl) as (x & Hx & _).
  discriminate Hx.
Qed.

(** C1 (amended): when the face cascade raises or answers with no
    rectangle, [detect_faces] returns the empty list, after that one call. *)
Theorem detect_faces_zero_candidates (rotate : image -> point -> point -> image)
    (self : OpenCvClient) (img : image) (align : bool)
    (t : list event) (res : exn + list (image * rect * score)) :
  exec (detect_faces rotate self img align) t res ->
  zero_candidates t ->
  res = inr [] /\ length t = 1%nat.
Proof.
  intros H Hz. apply detect_faces_exec in H.
  destruct (model self !! "face_detector") as [c|].
  - destruct H as (r & t' & -> & H). simpl in Hz.
    destruct r as [e|[[faces lv] scores]].
    + destruct H as [-> ->]. auto.
    + subst faces. simpl in H. destruct H as [-> ->]. auto.
  - destruct H as [-> _]. destruct Hz.
Qed.

Lemma detect_faces_zero_candidates_witness :
  exec (detect_faces rotate_none client0 black true) [no_faces] (inr []) /\
  zero_candidates [no_faces] /\
  (inr [] : exn + list (image * rect * score)) = inr [] /\ length [no_faces] = 1%nat.
Proof.
  assert (H : exec (detect_faces rotate_none client0 black true) [no_faces] (inr [])).
  { exec_step. exec_done. }
  split; [exact H|]. split; [reflexivity|].
  exact (detect_faces_zero_candidates rotate_none client0 black true
           [no_faces] (inr []) H eq_refl).
Defined.

(** C2: with a face classifier [c] in the model, an exception [e] of the
    face cascade is not an exception of [detect_faces]: the execution in
    which the cascade raises [e] exists and returns the empty list, no
    execution goes on or ends otherwise after that raise, and the executions
    after the raise are those after an answer with no rectangle. *)
Theorem detect_faces_swallows_cascade_error
    (rotate : image -> point -> point -> image)
    (self : OpenCvClient) (img : image) (align : bool) (c : classifier) (e : exn) :
  model self !! "face_detector" = Some c ->
  let raised := EvDetectMultiScale3 c img float_1_1 10 (inl e) in
  exec (detect_faces rotate self img align) [raised] (inr []) /\
  (forall t res,
     exec (detect_faces rotate self img align) (raised :: t) res ->
     t = [] /\ res = inr []) /\
  (forall lv scores t res,
     exec (detect_faces rotate self img align) (raised :: t) res <->
     exec (detect_faces rotate self img align)
       (EvDetectMultiScale3 c img float_1_1 10 (inr ([], lv, scores)) :: t) res).
Proof.
  intros Hc raised.
  assert (Hraise : forall t res,
    exec (detect_faces rotate self img align) (raised :: t) res <->
    t = [] /\ res = inr []).
  { intros t res. rewrite detect_faces_exec, Hc. split.
    - intros (r & t' & Heq & H). injection Heq as <- <-. exact H.
    - intros H. exists (inl e), t. split; [reflexivity|exact H]. }
  assert (Hnone : forall lv scores t res,
    exec (detect_faces rotate self img align)
      (EvDetectMultiScale3 c img float_1_1 10 (inr ([], lv, scores)) :: t) res <->
    t = [] /\ res = inr []).
  { intros lv scores t res. rewrite detect_faces_exec, Hc. split.
    - intros (r & t' & Heq & H). injection Heq as <- <-. exact H.
    - intros H. exists (inr ([], lv, scores)), t. split; [reflexivity|exact H]. }
  split; [apply Hraise; auto|]. split.
  - intros t res. apply Hraise.
  - intros lv scores t res. rewrite Hraise, Hnone. reflexivity.
Qed.

Lemma detect_faces_swallows_cascade_error_witness :
  model client0 !! "face_detector" = Some (CascadeClassifier face_xml) /\
  exec (detect_faces rotate_none client0 black true)
    [EvDetectMultiScale3 (CascadeClassifier face_xml) black float_1_1 10
       (inl (Exception_ "cv2.error" "bad image"))]
    (inr []).
Proof.
  assert (H : model client0 !! "face_detector" = Some (CascadeClassifier face_xml))
    by reflexivity.
  split; [exact H|].
  exact (proj1 (detect_faces_swallows_cascade_error rotate_none client0 black true
                  _ (Exception_ "cv2.error" "bad image") H)).
Defined.

(** *** One result per candidate *)

(** C8, as stated, fails: the face cascade reports one candidate, [align]
    is set and the grey conversion of the crop raises; lines 72-74 are
    outside the [try], so [detect_faces] raises and returns no tuple. *)
Lemma detect_faces_eye_stage_raises :
  exec (detect_faces rotate_none client0 black true) one_face_then_raise
    (inl (Exception_ "cv2.error" "Invalid number of channels in input image")) /\
  ~ one_tuple_per_candidate_claim rotate_none.
Proof.
  assert (H : exec (detect_faces rotate_none client0 black true) one_face_then_raise
                (inl (Exception_ "cv2.error" "Invalid number of channels in input image"))).
  { exec_step. exec_step. exec_done. }
  split; [exact H|].
  intros Hclaim.
  destruct (Hclaim client0 black true _ _ _ [face_a] [20] [5%float] _ _ 1%nat H
              eq_refl eq_refl (le_n 1)) as (resp & Hres & _).
  discriminate Hres.
Qed.

(** C8 (amended): when the face cascade answers with n >= 1 rectangles and
    n scores, and the calls of the eye stage are answered (with an eye
    classifier in the model when [align] is set), [detect_faces] returns n
    tuples: the regions are the rectangles and the confidences the scores,
    in the order of the cascade. *)
Theorem detect_faces_one_per_candidate
    (rotate : image -> point -> point -> image)
    (self : OpenCvClient) (img : image) (align : bool)
    (c : classifier) (sf : float) (mn : Z)
    (faces : list rect) (levels : list Z) (scores : list score)
    (t : list event) (res : exn + list (image * rect * score)) (n : nat) :
  exec (detect_faces rotate self img align)
    (EvDetectMultiScale3 c img sf mn (inr (faces, levels, scores)) :: t) res ->
  length faces = n -> length scores = n -> (1 <= n)%nat ->
  Forall answered t ->
  (align = true -> is_Some (model self !! "eye_detector")) ->
  exists resp,
    res = inr resp /\
    length resp = n /\
    region_of <$> resp = faces /\
    confidence_of <$> resp = scores /\
    forall i x, resp !! i = Some x ->
      faces !! i = Some (region_of x) /\ scores !! i = Some (confidence_of x).
Proof.
  intros H Hf Hs Hn Ht Hk. apply detect_faces_exec in H.
  destruct (model self !! "face_detector") as [c'|];
    [|destruct H as [H _]; discriminate H].
  destruct H as (r & t' & Heq & H). injection Heq as _ _ _ <- <-.
  destruct (0 <? Z.of_nat (length faces)) eqn:Hpos;
    [|apply Z.ltb_ge in Hpos; lia].
  apply for_each_body_exec in H. destruct res as [e|resp].
  { exfalso. apply H. auto. }
  destruct H as (added & -> & Hadded). simpl.
  exists added. split; [reflexivity|].
  pose proof (Forall2_length _ _ _ Hadded) as Hlen.
  rewrite length_zip_with in Hlen.
  destruct (made_for_regions rotate self img align _ _ Hadded) as [Hr Hc].
  change (fst <$> zip faces scores) with ((zip faces scores).*1) in Hr.
  change (snd <$> zip faces scores) with ((zip faces scores).*2) in Hc.
  rewrite fst_zip in Hr by lia. rewrite snd_zip in Hc by lia.
  split; [lia|]. split; [exact Hr|]. split; [exact Hc|].
  intros i x Hx. split.
  - rewrite <- Hr, list_lookup_fmap, Hx. reflexivity.
  - rewrite <- Hc, list_lookup_fmap, Hx. reflexivity.
Qed.

Lemma detect_faces_one_per_candidate_witness :
  exec (detect_faces rotate_none client0 black true) two_faces_aligned
    (inr two_results) /\
  Forall answered (tail two_faces_aligned) /\
  is_Some (model client0 !! "eye_detector") /\
  exists resp,
    (inr two_results : exn + list (image * rect * score)) = inr resp /\
    length resp = 2%nat /\
    region_of <$> resp = [face_a; face_b] /\
    confidence_of <$> resp = [5%float; 3.5%float].
Proof.
  assert (H : exec (detect_faces rotate_none client0 black true)
                two_faces_aligned (inr two_results)).
  { exec_step. exec_step. exec_step. exec_step. exec_step. exec_done. }
  assert (Ht : Forall answered (tail two_faces_aligned)).
  { repeat constructor. }
  assert (Hk : is_Some (model client0 !! "eye_detector")).
  { eexists. reflexivity. }
  split; [exact H|]. split; [exact Ht|]. split; [exact Hk|].
  destruct (detect_faces_one_per_candidate rotate_none client0 black true
              _ _ _ _ _ _ (tail two_faces_aligned) _ 2%nat H eq_refl eq_refl)
    as (resp & Hres & Hlen & Hr & Hc & _).
  - lia.
  - exact Ht.
  - intros _. exact Hk.
  - exists resp. auto.
Defined.

(** *** Regions and faces *)

(** C7: each tuple of a returned result holds the rectangle its face was
    made from: the face is the crop of the image at the tuple's own region,
    as it is when [align] is off, and passed through [align_face] with the
    eyes found on that crop when [align] is on.  For a region inside the
    image that crop has the region's size and its pixel (i, j) is the pixel
    (y + i, x + j) of the image. *)
Theorem detect_faces_region_is_source
    (rotate : image -> point -> point -> image)
    (self : OpenCvClient) (img : image) (align : bool)
    (t : list event) (resp : list (image * rect * score)) :
  exec (detect_faces rotate self img align) t (inr resp) ->
  Forall (fun x =>
    let region := region_of x in
    derived_from rotate self img align region (face_of x) /\
    (align = false -> face_of x = crop img region) /\
    (nd_wf img -> inside region img ->
       shape0 (crop img region) = rh region /\
       shape1 (crop img region) = rw region /\
       forall i j : nat, Z.of_nat i < rh region -> Z.of_nat j < rw region ->
         pixel_at (crop img region) i j =
         pixel_at img (Z.to_nat (ry region) + i) (Z.to_nat (rx region) + j)))
    resp.
Proof.
  intros H. apply detect_faces_made_for in H as (candidates & H).
  apply made_for_derived in H.
  rewrite List.Forall_forall in *. intros x Hx. specialize (H x Hx).
  split; [exact H|]. split.
  - intros ->. exact H.
  - intros Hwf Hin. apply crop_inside; assumption.
Qed.

Lemma detect_faces_region_is_source_witness :
  exec (detect_faces rotate_none client0 black false) [two_faces] (inr two_results) /\
  Forall (fun x => face_of x = crop black (region_of x)) two_results.
Proof.
  assert (H : exec (detect_faces rotate_none client0 black false)
                [two_faces] (inr two_results)).
  { exec_step. exec_done. }
  split; [exact H|].
  pose proof (detect_faces_region_is_source rotate_none client0 black false
                [two_faces] two_results H) as Hall.
  rewrite List.Forall_forall in *. intros x Hx.
  destruct (Hall x Hx) as (_ & Hcrop & _). apply Hcrop. reflexivity.
Defined.

(** *** Further examples *)

Example split_posix :
  split "/" "/usr/lib/cv2/__init__.py" = [""; "usr"; "lib"; "cv2"; "__init__.py"].
Proof. reflexivity. Qed.

Example split_no_separator : split "/" "cv2.py" = ["cv2.py"].
Proof. reflexivity. Qed.

(** A module path without a directory leaves no folder to start from. *)
Example get_opencv_path_no_directory isfile :
  __get_opencv_path (mk_py_env "cv2.py" "/" isfile) =
    inl (IndexError "list index out of range").
Proof. reflexivity. Qed.

Example py_slice_clamps :
  py_slice 1 10 [1; 2; 3; 4] = [2; 3; 4] /\
  py_slice (-2) 4 [1; 2; 3; 4] = [3; 4] /\
  py_slice 3 1 [1; 2; 3; 4] = [].
Proof. repeat split; reflexivity. Qed.

(** Equal keys keep the order of the input. *)
Example sorted_reverse_stable :
  sorted_reverse snd [("a", 1); ("b", 3); ("c", 1); ("d", 3)] =
    [("b", 3); ("d", 3); ("a", 1); ("c", 1)].
Proof. reflexivity. Qed.

(** Truncation is towards zero on both sides. *)
Example eye_center_truncates :
  eye_center (mk_rect 40 11 15 15) = (47, 18) /\
  eye_center (mk_rect (-3) (-8) 1 3) = (-2, -6).
Proof. split; reflexivity. Qed.

Example crop_face_b :
  crop (mk_ndarray 3 [[1; 2; 3]; [4; 5; 6]; [7; 8; 9]]) (mk_rect 1 1 2 2) =
    mk_ndarray 2 [[5; 6]; [8; 9]].
Proof. reflexivity. Qed.

(** Against an OpenCV whose face cascade always raises, the detector
    returns the empty list. *)
Example run_cascade_raises :
  run (mk_cv2_env (fun _ _ _ _ => inl (Exception_ "cv2.error" "bad image"))
                  (fun _ _ => inr black_gray) (fun _ _ _ _ => inr []))
      (detect_faces rotate_none client0 black true) =
    ([EvDetectMultiScale3 (CascadeClassifier face_xml) black float_1_1 10
        (inl (Exception_ "cv2.error" "bad image"))], inr []).
Proof. reflexivity. Qed.

Lemma find_eyes_left_has_smaller_x_witness :
  let a := mk_rect 10 10 20 20 in
  let b := mk_rect 50 12 20 20 in
  let t := find_eyes_trace black_gray [b; a] in
  let res := inr (Some (20, 20), Some (60, 22)) in
  exec (find_eyes client0 black) t res /\
  eye_cascade_returned t [b; a] /\
  sorted_reverse eye_key [b; a] = [b; a] /\
  rx a < rx b /\
  res = inr (Some (eye_center a), Some (eye_center b)) /\
  fst (eye_center a) < fst (eye_center b).
Proof.
  intros a b t res.
  assert (H1 : exec (find_eyes client0 black) t res).
  { exec_step. exec_step. exec_done. }
  assert (H2 : eye_cascade_returned t [b; a]).
  { do 4 eexists. right. left. reflexivity. }
  assert (H3 : sorted_reverse eye_key [b; a] = [b; a]) by reflexivity.
  assert (H4 : rx a < rx b) by (simpl; lia).
  split; [exact H1|]. split; [exact H2|]. split; [exact H3|]. split; [exact H4|].
  destruct (find_eyes_left_has_smaller_x client0 black t res [b; a] b a [] a b
              H1 H2 H3 (or_intror (conj eq_refl eq_refl)) H4)
    as (Hres & _ & _ & Hlt).
  split; [exact Hres|]. apply Hlt; simpl; lia.
Defined.

Lemma build_model_all_or_nothing_witness :
  __get_opencv_path (env_posix (fun _ => true)) = inr data_dir /\
  exists m, build_model (env_posix (fun _ => true)) = inr m /\
    m !! "face_detector" = Some (CascadeClassifier face_xml) /\
    m !! "eye_detector" = Some (CascadeClassifier eye_xml).
Proof.
  assert (H : __get_opencv_path (env_posix (fun _ => true)) = inr data_dir)
    by reflexivity.
  split; [exact H|].
  destruct (build_model_all_or_nothing (env_posix (fun _ => true)) data_dir H)
    as [Hboth _].
  apply Hboth; reflexivity.
Defined.

(** * Further properties *)

(** ** The data directory *)

Lemma append_assoc (a b c : string) : (a +:+ b) +:+ c = a +:+ (b +:+ c).
Proof.
  induction a as [|d a IH]; [reflexivity|].
  change (String d ((a +:+ b) +:+ c) = String d (a +:+ (b +:+ c))).
  f_equal. exact IH.
Qed.

Lemma split_nonempty sep s : exists piece pieces, split sep s = piece :: pieces.
Proof.
  induction s as [|c s (p & ps & IH)]; simpl; [eauto|].
  destruct (Ascii.eqb c sep); [eauto|]. rewrite IH. eauto.
Qed.

(** Without the separator there is one piece, with it at least two. *)
Lemma split_no_sep sep s : occurs sep s = false -> split sep s = [s].
Proof.
  induction s as [|c s IH]; simpl; [reflexivity|].
  destruct (Ascii.eqb c sep); simpl; [discriminate|].
  intros H. rewrite (IH H). reflexivity.
Qed.

Lemma split_with_sep sep s :
  occurs sep s = true -> exists p q pieces, split sep s = p :: q :: pieces.
Proof.
  induction s as [|c s IH]; simpl; [discriminate|].
  destruct (Ascii.eqb c sep); simpl.
  - intros _. destruct (split_nonempty sep s) as (q & qs & ->). eauto.
  - intros H. destruct (IH H) as (p & q & ps & ->). eauto.
Qed.

Lemma split_app_sep sep a b :
  split sep (a +:+ String sep b) = split sep a ++ split sep b.
Proof.
  induction a as [|c a IH]; simpl.
  - rewrite Ascii.eqb_refl. reflexivity.
  - destruct (Ascii.eqb c sep); [rewrite IH; reflexivity|].
    rewrite IH. destruct (split_nonempty sep a) as (p & ps & ->). reflexivity.
Qed.

Lemma join_shift (pieces : list string) (acc piece : string) :
  fold_left (fun path folder => path +:+ "/" +:+ folder) pieces (acc +:+ piece) =
  acc +:+ fold_left (fun path folder => path +:+ "/" +:+ folder) pieces piece.
Proof.
  revert piece. induction pieces as [|q qs IH]; intros piece; simpl; [reflexivity|].
  rewrite append_assoc. apply IH.
Qed.

(** Joining the pieces with "/" writes the string back with "/" for each
    separator. *)
Lemma join_split sep s :
  match split sep s with
  | [] => False
  | piece :: pieces =>
      fold_left (fun path folder => path +:+ "/" +:+ folder) pieces piece =
      replace_char sep "/" s
  end.
Proof.
  induction s as [|c s IH]; simpl; [reflexivity|].
  destruct (split sep s) as [|p ps]; [destruct IH|].
  destruct (Ascii.eqb c sep); simpl.
  - change ("" +:+ "/" +:+ p) with ("/" +:+ p).
    rewrite join_shift, IH. reflexivity.
  - change (String c p) with (String c "" +:+ p).
    rewrite join_shift, IH. reflexivity.
Qed.

(** X1: for a module file [dir sep name] whose [name] has no separator,
    the data directory is [dir] with each separator written as "/",
    followed by "/data/"; the file name plays no part. *)
Theorem get_opencv_path_dirname (env : py_env) (dir name : string) :
  cv2___file__ env = dir +:+ String (os_path_sep env) name ->
  occurs (os_path_sep env) name = false ->
  __get_opencv_path env = inr (replace_char (os_path_sep env) "/" dir +:+ "/data/") /\
  (os_path_sep env = "/"%char -> __get_opencv_path env = inr (dir +:+ "/data/")).
Proof.
  intros Hfile Hname.
  assert (H : __get_opencv_path env =
              inr (replace_char (os_path_sep env) "/" dir +:+ "/data/")).
  { unfold __get_opencv_path, slice_0_m1. rewrite Hfile, split_app_sep.
    rewrite (split_no_sep _ _ Hname), removelast_last.
    pose proof (join_split (os_path_sep env) dir) as Hj.
    destruct (split (os_path_sep env) dir) as [|p ps]; [destruct Hj|].
    rewrite Hj. reflexivity. }
  split; [exact H|].
  intros Hsep. rewrite H, Hsep. f_equal. f_equal.
  clear. induction dir as [|c dir IH]; simpl; [reflexivity|].
  rewrite IH. destruct (Ascii.eqb c "/") eqn:Hc; [|reflexivity].
  apply Ascii.eqb_eq in Hc. subst c. reflexivity.
Qed.

Lemma get_opencv_path_dirname_witness :
  let env := mk_py_env "C:\Python\Lib\site-packages\cv2\__init__.py" "\" (fun _ => true) in
  cv2___file__ env = "C:\Python\Lib\site-packages\cv2" +:+ String (os_path_sep env) "__init__.py" /\
  occurs (os_path_sep env) "__init__.py" = false /\
  __get_opencv_path env = inr "C:/Python/Lib/site-packages/cv2/data/".
Proof.
  intros env.
  assert (H1 : cv2___file__ env =
    "C:\Python\Lib\site-packages\cv2" +:+ String (os_path_sep env) "__init__.py")
    by reflexivity.
  assert (H2 : occurs (os_path_sep env) "__init__.py" = false) by reflexivity.
  split; [exact H1|]. split; [exact H2|].
  exact (proj1 (get_opencv_path_dirname env _ _ H1 H2)).
Defined.

(** X2: the data directory cannot be derived exactly when [cv2.__file__]
    holds no separator; then [__build_cascade] raises the [IndexError] for
    every name, known or not, and so do [build_model] and [__init__],
    before any file is looked up. *)
Theorem get_opencv_path_index_error (env : py_env) :
  let err := IndexError "list index out of range" in
  (occurs (os_path_sep env) (cv2___file__ env) = false <->
   __get_opencv_path env = inl err) /\
  (occurs (os_path_sep env) (cv2___file__ env) = true <->
   exists dir, __get_opencv_path env = inr dir) /\
  (__get_opencv_path env = inl err ->
   (forall name, __build_cascade env name = inl err) /\
   build_model env = inl err /\ __init__ env = inl err).
Proof.
  intros err.
  assert (Hno : occurs (os_path_sep env) (cv2___file__ env) = false ->
                __get_opencv_path env = inl err).
  { intros H. unfold __get_opencv_path. rewrite (split_no_sep _ _ H). reflexivity. }
  assert (Hyes : occurs (os_path_sep env) (cv2___file__ env) = true ->
                 exists dir, __get_opencv_path env = inr dir).
  { intros H. unfold __get_opencv_path, slice_0_m1.
    destruct (split_with_sep _ _ H) as (p & q & ps & ->).
    simpl. destruct ps; simpl; eauto. }
  split; [|split].
  - split; [exact Hno|]. intros H.
    destruct (occurs _ _) eqn:Ho; [|reflexivity].
    destruct (Hyes eq_refl) as (dir & Hd). congruence.
  - split; [exact Hyes|]. intros (dir & Hd).
    destruct (occurs _ _) eqn:Ho; [reflexivity|].
    rewrite (Hno eq_refl) in Hd. discriminate.
  - intros H.
    assert (Hb : forall name, __build_cascade env name = inl err).
    { intros name. unfold __build_cascade. rewrite H. reflexivity. }
    split; [exact Hb|].
    unfold __init__, build_model. rewrite Hb. split; reflexivity.
Qed.

(** X3: [__init__] returns an object exactly when the data directory is
    derived and both cascade files exist there; the model of that object
    has the keys "face_detector" and "eye_detector" and no other, bound to
    the classifiers of the two files. *)
Theorem init_succeeds_iff (env : py_env) (self : OpenCvClient) :
  (__init__ env = inr self <->
   exists dir,
     __get_opencv_path env = inr dir /\
     os_path_isfile env (dir +:+ "haarcascade_frontalface_default.xml") = true /\
     os_path_isfile env (dir +:+ "haarcascade_eye.xml") = true /\
     model self =
       <["eye_detector" := CascadeClassifier (dir +:+ "haarcascade_eye.xml")]>
         (<["face_detector" :=
              CascadeClassifier (dir +:+ "haarcascade_frontalface_default.xml")]> ∅)) /\
  (__init__ env = inr self ->
   dom (model self) = ({["face_detector"; "eye_detector"]} : gset string)).
Proof.
  assert (Hiff : __init__ env = inr self <->
   exists dir,
     __get_opencv_path env = inr dir /\
     os_path_isfile env (dir +:+ "haarcascade_frontalface_default.xml") = true /\
     os_path_isfile env (dir +:+ "haarcascade_eye.xml") = true /\
     model self =
       <["eye_detector" := CascadeClassifier (dir +:+ "haarcascade_eye.xml")]>
         (<["face_detector" :=
              CascadeClassifier (dir +:+ "haarcascade_frontalface_default.xml")]> ∅)).
  { unfold __init__, build_model.
    destruct (__get_opencv_path env) as [e|dir] eqn:Hdir.
    - unfold __build_cascade. rewrite Hdir. simpl. split; [discriminate|].
      intros (dir & Hd & _). discriminate.
    - rewrite (build_cascade_face env dir Hdir), (build_cascade_eye env dir Hdir).
      simpl. split.
      + destruct (os_path_isfile env _) eqn:Hf; [|discriminate].
        destruct (os_path_isfile env (dir +:+ "haarcascade_eye.xml")) eqn:He;
          [|discriminate].
        intros [= <-]. exists dir. auto.
      + intros (dir' & [= <-] & Hf & He & Hm). rewrite Hf, He.
        destruct self as [m]. simpl in Hm. rewrite Hm. reflexivity. }
  split; [exact Hiff|].
  intros H. apply Hiff in H as (dir & _ & _ & _ & ->).
  rewrite !dom_insert_L, dom_empty_L. set_solver.
Qed.

(** ** The calls of [find_eyes] and [detect_faces] *)

(** The calls of [find_eyes] are eye-stage calls, at most two; with an eye
    classifier in the model it returns when they all answer and otherwise
    raises what its last call raised. *)
Lemma find_eyes_calls self img t res :
  exec (find_eyes self img) t res ->
  Forall eye_stage t /\ (length t <= 2)%nat /\
  (is_Some (model self !! "eye_detector") ->
   match res with
   | inr _ => Forall answered t
   | inl e => exists t0 ev, t = t0 ++ [ev] /\ Forall answered t0 /\ raised ev e
   end).
Proof.
  intros H.
  apply find_eyes_exec in H as [(_ & -> & ->)|(_ & _ & rg & t' & -> & H)].
  { split; [constructor|]. split; [simpl; lia|]. intros _. constructor. }
  destruct rg as [e|g].
  { destruct H as [-> ->]. split; [repeat constructor|]. split; [simpl; lia|].
    intros _. exists [], (EvCvtColor img COLOR_BGR2GRAY (inl e)).
    split; [reflexivity|]. split; [constructor|reflexivity]. }
  destruct (model self !! "eye_detector") as [c|].
  - destruct H as (re & -> & ->).
    split; [repeat constructor|]. split; [simpl; lia|]. intros _.
    destruct re as [e|eyes].
    + exists [EvCvtColor img COLOR_BGR2GRAY (inr g)],
        (EvDetectMultiScale c g float_1_1 10 (inl e)).
      split; [reflexivity|]. split; [repeat constructor|reflexivity].
    + repeat constructor.
  - destruct H as [-> ->]. split; [repeat constructor|]. split; [simpl; lia|].
    intros [c Hc]. discriminate Hc.
Qed.

Section CallProperties.

Variable rotate : image -> point -> point -> image.

(** One turn of the loop makes the calls of [find_eyes] on the crop when
    [align] is set, and none otherwise. *)
Lemma detect_faces_body_calls self img align face conf resp t res :
  exec (detect_faces_body rotate self img align (face, conf) resp) t res ->
  if align then
    exists r, exec (find_eyes self (crop img face)) t r /\
      match r with
      | inl e => res = inl e
      | inr _ => returned res
      end
  else t = [] /\ returned res.
Proof.
  unfold detect_faces_body. destruct align; simpl.
  - intros H. apply exec_bind in H as [(e & H & ->)|(df & t1 & t2 & H & [-> ->] & ->)].
    + apply exec_bind in H as [(e' & H & [= <-])|(a & t1 & t2 & _ & H & _)].
      * exists (inl e). split; [exact H|reflexivity].
      * destruct a as [l r]. destruct H as [_ H]. discriminate H.
    + apply exec_bind in H as [(e' & _ & H)|([l r] & t1' & t2 & H & [-> _] & ->)];
        [discriminate H|].
      rewrite !app_nil_r. exists (inr (l, r)). split; [exact H|exact I].
  - intros [-> ->]. split; [reflexivity|exact I].
Qed.

(** The calls of the loop over the candidates. *)
Lemma for_each_body_calls self img align l :
  forall resp t res,
    exec (for_each l resp (detect_faces_body rotate self img align)) t res ->
    Forall eye_stage t /\ (length t <= 2 * length l)%nat /\
    (align = false -> t = [] /\ returned res) /\
    (is_Some (model self !! "eye_detector") ->
     match res with
     | inr _ => Forall answered t
     | inl e => exists t0 ev, t = t0 ++ [ev] /\ Forall answered t0 /\ raised ev e
     end).
Proof.
  induction l as [|[face conf] l IH]; intros resp t res; simpl.
  - intros [-> ->]. split; [constructor|]. split; [simpl; lia|].
    split; [intros _; split; [reflexivity|exact I]|]. intros _. constructor.
  - intros H. apply exec_bind in H as [(e & H & ->)|(a & t1 & t2 & H & Hl & ->)].
    + apply detect_faces_body_calls in H. destruct align.
      * destruct H as (r & H & Hr). apply find_eyes_calls in H as (Hs & Hn & Hk).
        destruct r as [e'|?]; [|destruct Hr]. injection Hr as ->.
        split; [exact Hs|]. split; [lia|]. split; [discriminate|exact Hk].
      * destruct H as [_ []].
    + apply detect_faces_body_calls in H. apply IH in Hl as (Hs2 & Hn2 & Hf2 & Hk2).
      destruct align.
      * destruct H as (r & H & Hr). apply find_eyes_calls in H as (Hs & Hn & Hk).
        destruct r as [e'|v]; [discriminate Hr|].
        split; [apply Forall_app; split; assumption|].
        split; [rewrite length_app; lia|]. split; [discriminate|].
        intros Hkey. specialize (Hk Hkey). specialize (Hk2 Hkey).
        destruct res as [e|out].
        -- destruct Hk2 as (t0 & ev & -> & Ht0 & Hev).
           exists (t1 ++ t0), ev. rewrite app_assoc. split; [reflexivity|].
           split; [apply Forall_app; split; assumption|exact Hev].
        -- apply Forall_app. split; assumption.
      * destruct H as [-> _]. simpl.
        split; [exact Hs2|]. split; [lia|]. split; [exact Hf2|exact Hk2].
Qed.

End CallProperties.

(** The model of an object that [__init__] returned. *)
Lemma init_model env self :
  __init__ env = inr self ->
  exists dir,
    __get_opencv_path env = inr dir /\
    model self !! "face_detector" =
      Some (CascadeClassifier (dir +:+ "haarcascade_frontalface_default.xml")) /\
    model self !! "eye_detector" =
      Some (CascadeClassifier (dir +:+ "haarcascade_eye.xml")).
Proof.
  unfold __init__, build_model.
  destruct (__get_opencv_path env) as [e|dir] eqn:Hdir.
  - unfold __build_cascade. rewrite Hdir. discriminate.
  - rewrite (build_cascade_face env dir Hdir), (build_cascade_eye env dir Hdir).
    simpl. destruct (os_path_isfile env _); [|discriminate].
    destruct (os_path_isfile env _); [|discriminate].
    intros [= <-]. exists dir. simpl. split; [reflexivity|]. split.
    + rewrite lookup_insert_ne by discriminate. apply lookup_insert_eq.
    + apply lookup_insert_eq.
Qed.

(** X4: with an object that [__init__] returned, [detect_faces] starts
    with one call of the face cascade loaded from the data directory, on the
    whole image with scale 1.1 and 10 neighbours; every later call is an
    eye-stage call.  It returns when those all answer.  It raises only with
    [align] set, and then what it raises is what its last call raised, all
    calls before having answered: no [KeyError] of its own. *)
Theorem detect_faces_after_init (rotate : image -> point -> point -> image)
    (env : py_env) (self : OpenCvClient) (img : image) (align : bool)
    (t : list event) (res : exn + list (image * rect * score)) :
  __init__ env = inr self ->
  exec (detect_faces rotate self img align) t res ->
  exists dir r t',
    __get_opencv_path env = inr dir /\
    t = EvDetectMultiScale3
          (CascadeClassifier (dir +:+ "haarcascade_frontalface_default.xml"))
          img float_1_1 10 r :: t' /\
    Forall eye_stage t' /\
    match res with
    | inr _ => Forall answered t'
    | inl e => align = true /\
               exists t0 ev, t' = t0 ++ [ev] /\ Forall answered t0 /\ raised ev e
    end.
Proof.
  intros Hinit H. destruct (init_model env self Hinit) as (dir & Hdir & Hf & He).
  apply detect_faces_exec in H. rewrite Hf in H. destruct H as (r & t' & -> & H).
  exists dir, r, t'. split; [exact Hdir|]. split; [reflexivity|].
  assert (Hnil : t' = [] /\ res = inr [] ->
    Forall eye_stage t' /\
    match res with
    | inr _ => Forall answered t'
    | inl e => align = true /\
               exists t0 ev, t' = t0 ++ [ev] /\ Forall answered t0 /\ raised ev e
    end).
  { intros [-> ->]. split; constructor. }
  destruct r as [e|[[faces lv] scores]]; [exact (Hnil H)|].
  destruct (0 <? Z.of_nat (length faces)); [|exact (Hnil H)].
  apply for_each_body_calls in H as (Hs & _ & Hoff & Hk).
  split; [exact Hs|]. specialize (Hk (ex_intro _ _ He)).
  destruct res as [e|out]; [|exact Hk]. split; [|exact Hk].
  destruct align; [reflexivity|]. destruct (Hoff eq_refl) as [_ []].
Qed.

(** X5: without a "face_detector" key in the model the [KeyError] is
    caught by the bare [except]: [detect_faces] calls nothing and returns
    the empty list. *)
Theorem detect_faces_missing_face_detector
    (rotate : image -> point -> point -> image)
    (self : OpenCvClient) (img : image) (align : bool) :
  model self !! "face_detector" = None ->
  exec (detect_faces rotate self img align) [] (inr []) /\
  forall t res, exec (detect_faces rotate self img align) t res ->
    t = [] /\ res = inr [].
Proof.
  intros Hnone. split.
  - apply detect_faces_exec. rewrite Hnone. auto.
  - intros t res H. apply detect_faces_exec in H. rewrite Hnone in H. exact H.
Qed.

Lemma detect_faces_missing_face_detector_witness :
  model client_no_face !! "face_detector" = None /\
  exec (detect_faces rotate_none client_no_face black true) [] (inr []).
Proof.
  assert (H : model client_no_face !! "face_detector" = None) by reflexivity.
  split; [exact H|].
  exact (proj1 (detect_faces_missing_face_detector rotate_none client_no_face
                  black true H)).
Defined.

(** X6: without an "eye_detector" key in the model, [find_eyes] on an
    image with rows and columns converts it to grey and then raises
    [KeyError], unless the conversion itself raised; the eye cascade is not
    called. *)
Theorem find_eyes_missing_eye_detector (self : OpenCvClient) (img : image)
    (t : list event) (res : exn + (option point * option point)) :
  model self !! "eye_detector" = None ->
  shape0 img <> 0 -> shape1 img <> 0 ->
  exec (find_eyes self img) t res ->
  exists rg, t = [EvCvtColor img COLOR_BGR2GRAY rg] /\
    match rg with
    | inl e => res = inl e
    | inr _ => res = inl (KeyError "eye_detector")
    end.
Proof.
  intros Hnone H0 H1 H.
  apply find_eyes_exec in H as [([?|?] & _)|(_ & _ & rg & t' & -> & H)];
    [contradiction|contradiction|].
  rewrite Hnone in H. exists rg.
  destruct rg as [e|g]; destruct H as [-> ->]; auto.
Qed.

Lemma find_eyes_missing_eye_detector_witness :
  let t := [EvCvtColor black COLOR_BGR2GRAY (inr black_gray)] in
  model client_no_eye !! "eye_detector" = None /\
  shape0 black <> 0 /\ shape1 black <> 0 /\
  exec (find_eyes client_no_eye black) t (inl (KeyError "eye_detector")) /\
  exists rg, t = [EvCvtColor black COLOR_BGR2GRAY rg].
Proof.
  intros t.
  assert (Hn : model client_no_eye !! "eye_detector" = None) by reflexivity.
  assert (H0 : shape0 black <> 0) by (vm_compute; discriminate).
  assert (H1 : shape1 black <> 0) by (vm_compute; discriminate).
  assert (H : exec (find_eyes client_no_eye black) t (inl (KeyError "eye_detector"))).
  { exec_step. exec_done. }
  split; [exact Hn|]. split; [exact H0|]. split; [exact H1|]. split; [exact H|].
  destruct (find_eyes_missing_eye_detector client_no_eye black t _ Hn H0 H1 H)
    as (rg & Ht & _).
  exists rg. exact Ht.
Defined.

(** X7: with [align] off [detect_faces] never raises, whatever the model
    holds and whatever OpenCV answers, and it calls OpenCV at most once. *)
Theorem detect_faces_no_align_returns (rotate : image -> point -> point -> image)
    (self : OpenCvClient) (img : image)
    (t : list event) (res : exn + list (image * rect * score)) :
  exec (detect_faces rotate self img false) t res ->
  returned res /\ (length t <= 1)%nat.
Proof.
  intros H. apply detect_faces_exec in H.
  destruct (model self !! "face_detector") as [c|].
  - destruct H as (r & t' & -> & H).
    assert (Hnil : t' = [] /\ res = inr [] ->
                   returned res /\ (length (EvDetectMultiScale3 c img float_1_1 10 r :: t') <= 1)%nat).
    { intros [-> ->]. split; [exact I|simpl; lia]. }
    destruct r as [e|[[faces lv] scores]]; [exact (Hnil H)|].
    destruct (0 <? Z.of_nat (length faces)); [|exact (Hnil H)].
    apply for_each_body_calls in H as (_ & _ & Hoff & _).
    destruct (Hoff eq_refl) as [-> Hres]. split; [exact Hres|simpl; lia].
  - destruct H as [-> ->]. split; [exact I|simpl; lia].
Qed.

Lemma detect_faces_after_init_witness :
  let env := env_posix (fun _ => true) in
  __init__ env = inr client0 /\
  exec (detect_faces rotate_none client0 black true) two_faces_aligned
    (inr two_results) /\
  exists r t', two_faces_aligned =
    EvDetectMultiScale3 (CascadeClassifier face_xml) black float_1_1 10 r :: t' /\
    Forall eye_stage t' /\ Forall answered t'.
Proof.
  intros env.
  assert (Hinit : __init__ env = inr client0) by (vm_compute; reflexivity).
  assert (H : exec (detect_faces rotate_none client0 black true)
                two_faces_aligned (inr two_results)).
  { exec_step. exec_step. exec_step. exec_step. exec_step. exec_done. }
  split; [exact Hinit|]. split; [exact H|].
  destruct (detect_faces_after_init rotate_none env client0 black true _ _ Hinit H)
    as (dir & r & t' & Hdir & Ht & Hs & Ha).
  injection Hdir as <-. exists r, t'. auto.
Defined.

Lemma detect_faces_no_align_returns_witness :
  exec (detect_faces rotate_none client0 black false) [two_faces] (inr two_results) /\
  returned (inr two_results : exn + list (image * rect * score)) /\
  (length [two_faces] <= 1)%nat.
Proof.
  assert (H : exec (detect_faces rotate_none client0 black false)
                [two_faces] (inr two_results)).
  { exec_step. exec_done. }
  split; [exact H|].
  exact (detect_faces_no_align_returns rotate_none client0 black _ _ H).
Defined.

Lemma fst_zip_take {A B : Type} (l : list A) (k : list B) :
  (zip l k).*1 = take (length k) l.
Proof.
  revert k. induction l as [|a l IH]; intros [|b k]; simpl; try reflexivity.
  f_equal. apply IH.
Qed.

Lemma snd_zip_take {A B : Type} (l : list A) (k : list B) :
  (zip l k).*2 = take (length l) k.
Proof.
  revert k. induction l as [|a l IH]; intros [|b k]; simpl; try reflexivity.
  f_equal. apply IH.
Qed.

(** X8: the loop runs over [zip(faces, scores)], so when the cascade hands
    over lists of different lengths the longer one is cut: with the
    eye-stage calls answered there are as many tuples as the shorter list
    has elements, made of the leading rectangles and the leading scores,
    and no exception for the mismatch. *)
Theorem detect_faces_zip_truncates (rotate : image -> point -> point -> image)
    (self : OpenCvClient) (img : image) (align : bool)
    (c : classifier) (sf : float) (mn : Z)
    (faces : list rect) (levels : list Z) (scores : list score)
    (t : list event) (res : exn + list (image * rect * score)) :
  exec (detect_faces rotate self img align)
    (EvDetectMultiScale3 c img sf mn (inr (faces, levels, scores)) :: t) res ->
  Forall answered t ->
  (align = true -> is_Some (model self !! "eye_detector")) ->
  exists resp,
    res = inr resp /\
    length resp = Nat.min (length faces) (length scores) /\
    region_of <$> resp = take (length scores) faces /\
    confidence_of <$> resp = take (length faces) scores.
Proof.
  intros H Ht Hk. apply detect_faces_exec in H.
  destruct (model self !! "face_detector") as [c'|];
    [|destruct H as [H _]; discriminate H].
  destruct H as (r & t' & Heq & H). injection Heq as _ _ _ <- <-.
  destruct (0 <? Z.of_nat (length faces)) eqn:Hpos.
  - apply for_each_body_exec in H. destruct res as [e|resp].
    { exfalso. apply H. auto. }
    destruct H as (added & -> & Hadded). simpl. exists added.
    split; [reflexivity|].
    pose proof (Forall2_length _ _ _ Hadded) as Hlen.
    rewrite length_zip_with in Hlen.
    destruct (made_for_regions rotate self img align _ _ Hadded) as [Hr Hc].
    change (fst <$> zip faces scores) with ((zip faces scores).*1) in Hr.
    change (snd <$> zip faces scores) with ((zip faces scores).*2) in Hc.
    rewrite fst_zip_take in Hr. rewrite snd_zip_take in Hc. auto.
  - apply Z.ltb_ge in Hpos. destruct faces; [|simpl in Hpos; lia].
    destruct H as [_ ->]. exists []. rewrite take_0. rewrite take_nil. auto.
Qed.

Lemma detect_faces_zip_truncates_witness :
  let first := EvDetectMultiScale3 (CascadeClassifier face_xml) black float_1_1 10
                 (inr ([face_a; face_b], [20; 20], [5%float])) in
  let res := inr [(crop black face_a, face_a, 5%float)] in
  exec (detect_faces rotate_none client0 black false) [first] res /\
  exists resp, res = inr resp /\ length resp = 1%nat /\
    region_of <$> resp = [face_a].
Proof.
  intros first res.
  assert (H : exec (detect_faces rotate_none client0 black false) [first] res).
  { exec_step. exec_done. }
  split; [exact H|].
  destruct (detect_faces_zip_truncates rotate_none client0 black false
              _ _ _ _ _ _ [] res H) as (resp & Hres & Hlen & Hr & _).
  - constructor.
  - discriminate.
  - exists resp. auto.
Defined.

(** X9: [detect_faces] calls the face cascade at most once, first, and
    after an answer with the lists [faces] and [scores] it makes at most two
    eye-stage calls for each pair of [zip(faces, scores)]. *)
Theorem detect_faces_call_bound (rotate : image -> point -> point -> image)
    (self : OpenCvClient) (img : image) (align : bool)
    (t : list event) (res : exn + list (image * rect * score)) :
  exec (detect_faces rotate self img align) t res ->
  Forall eye_stage (tail t) /\
  forall c sf mn faces levels scores t',
    t = EvDetectMultiScale3 c img sf mn (inr (faces, levels, scores)) :: t' ->
    (length t' <= 2 * Nat.min (length faces) (length scores))%nat.
Proof.
  intros H. apply detect_faces_exec in H.
  destruct (model self !! "face_detector") as [c|].
  - destruct H as (r & t' & -> & H). simpl.
    destruct r as [e|[[faces lv] scores]].
    { destruct H as [-> _]. split; [constructor|].
      intros ? ? ? ? ? ? ? Heq. discriminate Heq. }
    destruct (0 <? Z.of_nat (length faces)).
    + apply for_each_body_calls in H as (Hs & Hn & _).
      rewrite length_zip_with in Hn. split; [exact Hs|].
      intros ? ? ? ? ? ? ? Heq. injection Heq as _ _ _ <- <- <- <-. exact Hn.
    + destruct H as [-> _]. split; [constructor|].
      intros ? ? ? ? ? ? ? Heq. injection Heq as _ _ _ _ _ _ <-. simpl. lia.
  - destruct H as [-> _]. split; [constructor|].
    intros ? ? ? ? ? ? ? Heq. discriminate Heq.
Qed.

Lemma detect_faces_call_bound_witness :
  exec (detect_faces rotate_none client0 black true) two_faces_aligned
    (inr two_results) /\
  Forall eye_stage (tail two_faces_aligned) /\
  (length (tail two_faces_aligned) <= 2 * 2)%nat.
Proof.
  assert (H : exec (detect_faces rotate_none client0 black true)
                two_faces_aligned (inr two_results)).
  { exec_step. exec_step. exec_step. exec_step. exec_step. exec_done. }
  split; [exact H|].
  destruct (detect_faces_call_bound rotate_none client0 black true _ _ H)
    as [Hs Hn].
  split; [exact Hs|]. exact (Hn _ _ _ _ _ _ _ eq_refl).
Defined.

(** ** Crops *)

Lemma slice_index_range i n : 0 <= n -> 0 <= slice_index i n <= n.
Proof.
  intros Hn. unfold slice_index. destruct (i <? 0) eqn:Hi; [|apply Z.ltb_ge in Hi]; lia.
Qed.

Lemma py_slice_length {A : Type} (l : list A) (a b : Z) :
  length (py_slice a b l) = slice_len a b (Z.of_nat (length l)).
Proof.
  unfold py_slice, slice_len. rewrite length_take, length_drop.
  pose proof (slice_index_range a (Z.of_nat (length l)) ltac:(lia)).
  pose proof (slice_index_range b (Z.of_nat (length l)) ltac:(lia)).
  lia.
Qed.

Lemma py_slice_Forall {A : Type} (P : A -> Prop) (l : list A) (a b : Z) :
  Forall P l -> Forall P (py_slice a b l).
Proof. intros H. unfold py_slice. apply Forall_take, Forall_drop, H. Qed.

(** X10: whatever the rectangle, negative or outside the image, the crop
    of a well-formed image is a well-formed image that is not taller and
    not wider than the image: slicing clamps, it does not raise. *)
Theorem crop_well_formed {P : Type} (img : ndarray P) (r : rect) :
  nd_wf img ->
  nd_wf (crop img r) /\
  0 <= shape0 (crop img r) <= shape0 img /\
  0 <= shape1 (crop img r) <= shape1 img.
Proof.
  intros Hwf. destruct r as [x y w h]. unfold nd_wf, shape0, shape1 in *. simpl.
  split; [|split].
  - apply Forall_fmap. eapply Forall_impl; [apply py_slice_Forall, Hwf|].
    intros row Hrow. simpl. rewrite py_slice_length, Hrow. reflexivity.
  - rewrite length_fmap, py_slice_length. unfold slice_len.
    pose proof (slice_index_range y (Z.of_nat (length (nd_rows img))) ltac:(lia)).
    pose proof (slice_index_range (int32 (y + h)) (Z.of_nat (length (nd_rows img)))
                  ltac:(lia)).
    lia.
  - unfold slice_len, shape1.
    pose proof (slice_index_range x (Z.of_nat (nd_cols img)) ltac:(lia)).
    pose proof (slice_index_range (int32 (x + w)) (Z.of_nat (nd_cols img)) ltac:(lia)).
    lia.
Qed.

Lemma crop_well_formed_witness :
  nd_wf black /\ nd_wf (crop black (mk_rect (-3) 2 9 (-1))) /\
  0 <= shape1 (crop black (mk_rect (-3) 2 9 (-1))) <= shape1 black.
Proof.
  assert (H : nd_wf black) by (repeat constructor).
  split; [exact H|].
  destruct (crop_well_formed black (mk_rect (-3) 2 9 (-1)) H) as (Hw & _ & Hc).
  split; [exact Hw|exact Hc].
Defined.

(** A rectangle of 32-bit corner sums that sticks out of the image is cut
    at the right and bottom borders. *)
Lemma crop_clips {P : Type} (img : ndarray P) (r : rect) :
  0 <= rx r -> 0 <= ry r -> 0 <= rw r -> 0 <= rh r ->
  rx r + rw r < 2 ^ 31 -> ry r + rh r < 2 ^ 31 ->
  shape0 (crop img r) = Z.min (ry r + rh r) (shape0 img) - Z.min (ry r) (shape0 img) /\
  shape1 (crop img r) = Z.min (rx r + rw r) (shape1 img) - Z.min (rx r) (shape1 img) /\
  shape0 (crop img r) <= rh r /\ shape1 (crop img r) <= rw r.
Proof.
  intros Hx Hy Hw Hh Hxw Hyh. destruct r as [x y w h].
  simpl in Hx, Hy, Hw, Hh, Hxw, Hyh.
  assert (Hs : forall a len n, 0 <= a -> 0 <= len -> 0 <= n ->
             Z.of_nat (slice_len a (a + len) n) = Z.min (a + len) n - Z.min a n).
  { intros a len n Ha Hlen Hn. unfold slice_len, slice_index.
    destruct (a + len <? 0) eqn:H1; [apply Z.ltb_lt in H1; lia|].
    destruct (a <? 0) eqn:H2; [apply Z.ltb_lt in H2; lia|]. lia. }
  assert (H0 : shape0 (crop img (mk_rect x y w h)) =
               Z.min (y + h) (shape0 img) - Z.min y (shape0 img)).
  { unfold shape0. simpl. rewrite (int32_small (y + h)) by lia.
    rewrite length_fmap, py_slice_length. apply Hs; lia. }
  assert (H1 : shape1 (crop img (mk_rect x y w h)) =
               Z.min (x + w) (shape1 img) - Z.min x (shape1 img)).
  { unfold shape1 at 1. simpl. rewrite (int32_small (x + w)) by lia.
    apply Hs; unfold shape1; lia. }
  split; [exact H0|]. split; [exact H1|].
  rewrite H0, H1. simpl. lia.
Qed.

(** A corner sum of 2^31 wraps to a negative bound and the crop has no
    column. *)
Example crop_wraps :
  shape0 (crop black (mk_rect 1 0 2147483647 1)) = 1 /\
  shape1 (crop black (mk_rect 1 0 2147483647 1)) = 0.
Proof. split; reflexivity. Qed.

(** The region of each tuple is the rectangle of a candidate. *)
Lemma made_for_members rotate self img align l added :
  Forall2 (made_for rotate self img align) l added ->
  Forall (fun x => In (region_of x) (fst <$> l) /\
                   derived_from rotate self img align (region_of x) (face_of x)) added.
Proof.
  induction 1 as [|fc x l added (Hr & _ & Hd) _ IH]; constructor.
  - rewrite Hr. split; [left; reflexivity|exact Hd].
  - eapply Forall_impl; [exact IH|]. intros y [Hin Hy].
    split; [right; exact Hin|exact Hy].
Qed.

(** X11: with [align] off, each tuple reports the rectangle of its
    candidate uncut, while its face is that rectangle cut at the right and
    bottom borders of the image: for a rectangle with non-negative corner
    and size whose corner sums are 32-bit integers the face has
    [min(y + h, height) - min(y, height)] rows and
    [min(x + w, width) - min(x, width)] columns, never more than [h] and
    [w]. *)
Theorem detect_faces_clips_at_border (rotate : image -> point -> point -> image)
    (self : OpenCvClient) (img : image)
    (c : classifier) (sf : float) (mn : Z)
    (faces : list rect) (levels : list Z) (scores : list score)
    (t : list event) (resp : list (image * rect * score)) :
  exec (detect_faces rotate self img false)
    (EvDetectMultiScale3 c img sf mn (inr (faces, levels, scores)) :: t) (inr resp) ->
  Forall (fun x =>
    let r := region_of x in
    In r faces /\
    face_of x = crop img r /\
    (0 <= rx r -> 0 <= ry r -> 0 <= rw r -> 0 <= rh r ->
     rx r + rw r < 2 ^ 31 -> ry r + rh r < 2 ^ 31 ->
     shape0 (face_of x) = Z.min (ry r + rh r) (shape0 img) - Z.min (ry r) (shape0 img) /\
     shape1 (face_of x) = Z.min (rx r + rw r) (shape1 img) - Z.min (rx r) (shape1 img) /\
     shape0 (face_of x) <= rh r /\ shape1 (face_of x) <= rw r)) resp.
Proof.
  intros H. apply detect_faces_exec in H.
  destruct (model self !! "face_detector") as [c'|];
    [|destruct H as [H _]; discriminate H].
  destruct H as (r & t' & Heq & H). injection Heq as _ _ _ <- <-.
  destruct (0 <? Z.of_nat (length faces));
    [|destruct H as [_ [= ->]]; constructor].
  apply for_each_body_exec in H as (added & -> & Hadded). simpl.
  apply made_for_members in Hadded.
  eapply Forall_impl; [exact Hadded|]. intros x [Hin Hd]. simpl.
  unfold derived_from in Hd.
  split; [|split; [exact Hd|]].
  - change (fst <$> zip faces scores) with ((zip faces scores).*1) in Hin.
    rewrite fst_zip_take in Hin.
    apply list_elem_of_In. apply list_elem_of_In in Hin.
    exact (subseteq_take _ _ _ Hin).
  - intros Hx Hy Hw Hh Hxw Hyh. rewrite Hd.
    apply crop_clips; assumption.
Qed.

Lemma detect_faces_clips_at_border_witness :
  let first := EvDetectMultiScale3 (CascadeClassifier face_xml) black float_1_1 10
                 (inr ([face_out], [20], [5%float])) in
  let resp := [(crop black face_out, face_out, 5%float)] in
  exec (detect_faces rotate_none client0 black false) [first] (inr resp) /\
  Forall (fun x => In (region_of x) [face_out] /\
                   shape0 (face_of x) = 1 /\ shape1 (face_of x) = 2) resp.
Proof.
  intros first resp.
  assert (H : exec (detect_faces rotate_none client0 black false) [first] (inr resp)).
  { exec_step. exec_done. }
  split; [exact H|].
  pose proof (detect_faces_clips_at_border rotate_none client0 black
                _ _ _ _ _ _ _ _ H) as Hall.
  eapply Forall_impl; [exact Hall|]. intros x (Hin & Hface & Hclip). simpl in Hin.
  split; [exact Hin|]. destruct Hin as [Hr|[]].
  destruct Hclip as (H0 & H1 & _); try (rewrite <- Hr; simpl; lia).
  rewrite H0, H1, <- Hr. split; reflexivity.
Defined.

(** ** More on [find_eyes] *)




(** X13: when the candidates have non-negative sizes and pairwise
    different areas that are 32-bit integers, the eyes [find_eyes] returns
    do not depend on the order in which the eye cascade reports them (the
    cascade's order changes from call to call). *)
Theorem find_eyes_order_free (self self' : OpenCvClient) (img img' : image)
    (t t' : list event) (res res' : exn + (option point * option point))
    (eyes eyes' : list rect) :
  exec (find_eyes self img) t res ->
  exec (find_eyes self' img') t' res' ->
  eye_cascade_returned t eyes ->
  eye_cascade_returned t' eyes' ->
  Permutation eyes eyes' ->
  Forall rect_wf eyes ->
  Forall area_fits eyes ->
  List.NoDup (List.map area eyes) ->
  res = res'.
Proof.
  intros H H' Hr Hr' Hp Hwf Hfit Hnd0.
  assert (Hnd : List.NoDup (List.map eye_key eyes)).
  { rewrite (map_ext_in eye_key area); [exact Hnd0|].
    intros v Hv. rewrite List.Forall_forall in Hwf, Hfit.
    apply eye_key_area. split; auto. }
  rewrite (find_eyes_exec_eyes _ _ _ _ _ H Hr).
  rewrite (find_eyes_exec_eyes _ _ _ _ _ H' Hr').
  f_equal. apply find_eyes_of_order_free; assumption.
Qed.

Lemma find_eyes_order_free_witness :
  let eyes := eyes_100_400_225 in
  let eyes' := [mk_rect 40 11 15 15; mk_rect 30 12 10 10; mk_rect 8 10 20 20] in
  let res := inr (Some (18, 20), Some (47, 18)) in
  exec (find_eyes client0 black) (find_eyes_trace black_gray eyes) res /\
  exec (find_eyes client0 black) (find_eyes_trace black_gray eyes') res /\
  Permutation eyes eyes' /\
  Forall rect_wf eyes /\
  Forall area_fits eyes /\
  List.NoDup (List.map area eyes) /\
  res = res.
Proof.
  intros eyes eyes' res.
  assert (H : exec (find_eyes client0 black) (find_eyes_trace black_gray eyes) res).
  { exec_step. exec_step. exec_done. }
  assert (H' : exec (find_eyes client0 black) (find_eyes_trace black_gray eyes') res).
  { exec_step. exec_step. exec_done. }
  assert (Hp : Permutation eyes eyes').
  { unfold eyes, eyes', eyes_100_400_225.
    eapply perm_trans; [apply perm_swap|]. eapply perm_trans; [apply perm_skip, perm_swap|].
    eapply perm_trans; [apply perm_swap|]. apply perm_skip, perm_swap. }
  assert (Hwf : Forall rect_wf eyes).
  { repeat constructor; simpl; lia. }
  assert (Hfit : Forall area_fits eyes).
  { repeat constructor; unfold area_fits; simpl; lia. }
  assert (Hnd : List.NoDup (List.map area eyes)).
  { vm_compute. repeat constructor; simpl; intuition discriminate. }
  split; [exact H|]. split; [exact H'|]. split; [exact Hp|]. split; [exact Hwf|].
  split; [exact Hfit|]. split; [exact Hnd|].
  refine (find_eyes_order_free client0 client0 black black _ _ res res eyes eyes'
            H H' _ _ Hp Hwf Hfit Hnd).
  - do 4 eexists. right. left. reflexivity.
  - do 4 eexists. right. left. reflexivity.
Defined.

(** ** Candidates with an empty crop *)

Lemma for_each_empty_crops (rotate : image -> point -> point -> image)
    self img align (faces : list rect) :
  Forall (fun r => shape0 (crop img r) = 0 \/ shape1 (crop img r) = 0) faces ->
  forall (scores : list score) resp t res,
    exec (for_each (zip faces scores) resp (detect_faces_body rotate self img align))
      t res ->
    t = [] /\ returned res.
Proof.
  induction 1 as [|face faces Hd _ IH]; intros [|conf scores] resp t res; simpl;
    try (intros [-> ->]; split; [reflexivity|exact I]).
  intros H. apply exec_bind in H as [(e & H & ->)|(a & t1 & t2 & H & Hl & ->)].
  - apply detect_faces_body_calls in H. destruct align; [|destruct H as [_ []]].
    destruct H as (r & H & Hr).
    apply find_eyes_exec in H as [(_ & _ & ->)|(H0 & H1 & _)];
      [destruct Hr|]. destruct Hd; contradiction.
  - apply detect_faces_body_calls in H. apply IH in Hl as [-> Hres].
    destruct align.
    + destruct H as (r & H & _).
      apply find_eyes_exec in H as [(_ & -> & _)|(H0 & H1 & _)];
        [split; [reflexivity|exact Hres]|]. destruct Hd; contradiction.
    + destruct H as [-> _]. split; [reflexivity|exact Hres].
Qed.

(** X14: when every candidate's crop has no rows or no columns (a
    rectangle of height or width zero, or one beyond the image),
    [detect_faces] makes no eye-stage call even with [align] set, does not
    raise, and still returns one tuple for each pair of
    [zip(faces, scores)]. *)
Theorem detect_faces_skips_empty_crops (rotate : image -> point -> point -> image)
    (self : OpenCvClient) (img : image) (align : bool)
    (c : classifier) (sf : float) (mn : Z)
    (faces : list rect) (levels : list Z) (scores : list score)
    (t : list event) (res : exn + list (image * rect * score)) :
  exec (detect_faces rotate self img align)
    (EvDetectMultiScale3 c img sf mn (inr (faces, levels, scores)) :: t) res ->
  Forall (fun r => shape0 (crop img r) = 0 \/ shape1 (crop img r) = 0) faces ->
  t = [] /\
  exists resp, res = inr resp /\
    length resp = Nat.min (length faces) (length scores) /\
    region_of <$> resp = take (length scores) faces.
Proof.
  intros H Hd. apply detect_faces_exec in H.
  destruct (model self !! "face_detector") as [c'|];
    [|destruct H as [H _]; discriminate H].
  destruct H as (r & t' & Heq & H). injection Heq as _ _ _ <- <-.
  destruct (0 <? Z.of_nat (length faces)) eqn:Hpos.
  - destruct (for_each_empty_crops rotate self img align faces Hd _ _ _ _ H)
      as [-> Hres].
    split; [reflexivity|].
    apply for_each_body_exec in H. destruct res as [e|resp]; [destruct Hres|].
    destruct H as (added & -> & Hadded). simpl. exists added.
    split; [reflexivity|].
    pose proof (Forall2_length _ _ _ Hadded) as Hlen.
    rewrite length_zip_with in Hlen.
    destruct (made_for_regions rotate self img align _ _ Hadded) as [Hr _].
    change (fst <$> zip faces scores) with ((zip faces scores).*1) in Hr.
    rewrite fst_zip_take in Hr. auto.
  - apply Z.ltb_ge in Hpos. destruct faces; [|simpl in Hpos; lia].
    destruct H as [-> ->]. split; [reflexivity|].
    exists []. rewrite take_nil. auto.
Qed.

Lemma detect_faces_skips_empty_crops_witness :
  let first := EvDetectMultiScale3 (CascadeClassifier face_xml) black float_1_1 10
                 (inr ([face_flat], [20], [5%float])) in
  let res := inr [(crop black face_flat, face_flat, 5%float)] in
  exec (detect_faces rotate_none client0 black true) [first] res /\
  Forall (fun r => shape0 (crop black r) = 0 \/ shape1 (crop black r) = 0) [face_flat] /\
  exists resp, res = inr resp /\ length resp = 1%nat.
Proof.
  intros first res.
  assert (H : exec (detect_faces rotate_none client0 black true) [first] res).
  { exec_step. exec_done. }
  assert (Hd : Forall (fun r => shape0 (crop black r) = 0 \/ shape1 (crop black r) = 0)
                 [face_flat]).
  { constructor; [left; reflexivity|constructor]. }
  split; [exact H|]. split; [exact Hd|].
  destruct (detect_faces_skips_empty_crops rotate_none client0 black true
              _ _ _ _ _ _ [] res H Hd) as (_ & resp & Hres & Hlen & _).
  exists resp. auto.
Defined.

(** ** A model without eye classifier *)

(** X15: with [align] set and no "eye_detector" key in the model, the
    [KeyError] is not caught: when the first candidate's crop has rows and
    columns and its grey conversion answers, [detect_faces] raises
    [KeyError] right after that conversion and returns no tuple at all. *)
Theorem detect_faces_missing_eye_detector (rotate : image -> point -> point -> image)
    (self : OpenCvClient) (img : image)
    (c : classifier) (sf : float) (mn : Z)
    (face : rect) (faces : list rect) (levels : list Z)
    (conf : score) (scores : list score)
    (t : list event) (res : exn + list (image * rect * score)) :
  model self !! "eye_detector" = None ->
  shape0 (crop img face) <> 0 -> shape1 (crop img face) <> 0 ->
  exec (detect_faces rotate self img true)
    (EvDetectMultiScale3 c img sf mn (inr (face :: faces, levels, conf :: scores)) :: t)
    res ->
  Forall answered t ->
  res = inl (KeyError "eye_detector") /\
  exists g, t = [EvCvtColor (crop img face) COLOR_BGR2GRAY (inr g)].
Proof.
  intros Hnone H0 H1 H Ht. apply detect_faces_exec in H.
  destruct (model self !! "face_detector") as [c'|];
    [|destruct H as [H _]; discriminate H].
  destruct H as (r & t' & Heq & H). injection Heq as _ _ _ <- <-.
  change (exec (bind (detect_faces_body rotate self img true (face, conf) [])
                 (fun s' => for_each (zip faces scores) s'
                              (detect_faces_body rotate self img true))) t res) in H.
  apply exec_bind in H as [(e & H & ->)|(a & t1 & t2 & H & _ & ->)].
  - apply detect_faces_body_calls in H as (r & H & Hr).
    apply find_eyes_exec in H as [([?|?] & _)|(_ & _ & rg & t' & -> & H)];
      [contradiction|contradiction|].
    rewrite Hnone in H. inversion Ht as [|? ? Hrg _]; subst.
    destruct rg as [e'|g]; [destruct Hrg|]. destruct H as [-> ->].
    injection Hr as ->. split; [reflexivity|]. exists g. reflexivity.
  - apply detect_faces_body_calls in H as (r & H & Hr).
    apply find_eyes_exec in H as [([?|?] & _)|(_ & _ & rg & t' & -> & H)];
      [contradiction|contradiction|].
    rewrite Hnone in H.
    destruct rg as [e'|g]; destruct H as [_ ->]; discriminate Hr.
Qed.

Lemma detect_faces_missing_eye_detector_witness :
  let t := [EvCvtColor (crop black face_a) COLOR_BGR2GRAY (inr (crop black_gray face_a))] in
  model client_no_eye !! "eye_detector" = None /\
  exec (detect_faces rotate_none client_no_eye black true) (two_faces :: t)
    (inl (KeyError "eye_detector")) /\
  Forall answered t.
Proof.
  intros t.
  assert (Hn : model client_no_eye !! "eye_detector" = None) by reflexivity.
  assert (H : exec (detect_faces rotate_none client_no_eye black true) (two_faces :: t)
                (inl (KeyError "eye_detector"))).
  { exec_step. exec_step. exec_done. }
  assert (Ht : Forall answered t) by (repeat constructor).
  split; [exact Hn|]. split; [|exact Ht].
  assert (H0 : shape0 (crop black face_a) <> 0) by (vm_compute; discriminate).
  assert (H1 : shape1 (crop black face_a) <> 0) by (vm_compute; discriminate).
  destruct (detect_faces_missing_eye_detector rotate_none client_no_eye black
              _ _ _ _ _ _ _ _ t _ Hn H0 H1 H Ht) as [_ _].
  exact H.
Defined.
